(** * The episode controller of [camel/environments/base.py]

    A shallow embedding of [BaseEnvironment] (setup, teardown, reset, step,
    the observation sampler and the reward aggregator) and the properties
    of its episode state machine.

    Conventions of the embedding:
    - Python [int] is [Z]; a finite Python [float] is the rational number
      it denotes, in [Q]. The sum of a reward breakdown is added in binary64
      (module [Float64]), with its rounding; the success-rate update is
      written with exact operations, which coincide with binary64 on the
      values the controller computes it from. Infinities and NaN are not
      represented;
    - a Python [dict] is an insertion-ordered association list (module
      [Dict]), because [sum(rewards.values())] iterates in insertion order;
    - the mutable object [self] is the record [Env]; an operation is a
      function [Env -> Res A * Env] that returns the state at its exit,
      whether it returns normally ([Ok]) or by a raised exception ([Raise]);
    - collaborators (verifier, extractor, task source, teacher agent and the
      abstract [_compute_reward] hook) are oracles of the record [Config];
      each call to one is recorded in [trace], and an oracle sees the trace
      so far, so collaborators may answer differently from one call to the
      next;
    - [logger] calls have no effect on the state and are left out. *)

From Stdlib Require Import ZArith QArith List String Bool Lia DecimalString.
From Stdlib Require Import SpecFloat.
Import ListNotations.

Local Open Scope string_scope.
Local Open Scope Z_scope.
Local Open Scope list_scope.

(** ** Binary64 addition on rationals *)

Module Float64.

Definition prec : Z := 53.
Definition emax : Z := 1024.

(** The binary64 number nearest to a rational, ties to even: the quotient of
    numerator and denominator, rounded the way [SFdiv] rounds a quotient of
    mantissas. A rational that is a binary64 number is its own nearest. *)
Definition nearest (q : Q) : spec_float :=
  match Qnum q with
  | Z0 => S754_zero false
  | Zpos n =>
      let '(m, e, l) :=
        SFdiv_core_binary prec emax (Zpos n) 0 (Zpos (Qden q)) 0 in
      binary_round_aux prec emax false m e l
  | Zneg n =>
      let '(m, e, l) :=
        SFdiv_core_binary prec emax (Zpos n) 0 (Zpos (Qden q)) 0 in
      binary_round_aux prec emax true m e l
  end.

(** The rational a finite binary64 number denotes. *)
Definition value (f : spec_float) : option Q :=
  match f with
  | S754_zero _ => Some 0%Q
  | S754_finite s m e =>
      Some (Qred (inject_Z (cond_Zopp s (Zpos m)) * Qpower 2 e))
  | S754_infinity _ | S754_nan => None
  end.

(** [a + b] on floats: the binary64 addition [SFadd] of the two numbers. A
    sum that leaves the binary64 range has no value in [Q]; it is then kept
    unrounded, and stands for no result of the code. *)
Definition add (a b : Q) : Q :=
  match value (SFadd prec emax (nearest a) (nearest b)) with
  | Some v => v
  | None => (a + b)%Q
  end.

End Float64.

(** ** Python dictionaries *)

Module Dict.

Definition dict (V : Type) : Type := list (string * V).

Fixpoint get {V} (k : string) (d : dict V) : option V :=
  match d with
  | [] => None
  | (k', v) :: d' => if String.eqb k k' then Some v else get k d'
  end.

(** [d[k] = v]: an existing key keeps its position, a new key goes last. *)
Fixpoint set {V} (k : string) (v : V) (d : dict V) : dict V :=
  match d with
  | [] => [(k, v)]
  | (k', v') :: d' =>
      if String.eqb k k' then (k, v) :: d' else (k', v') :: set k v d'
  end.

(** [d1 | d2], also [{**d1, **d2}]: the entries of [d2] are written into a
    copy of [d1], one after the other. *)
Definition union {V} (d1 d2 : dict V) : dict V :=
  fold_left (fun acc kv => set (fst kv) (snd kv) acc) d2 d1.

Definition keys {V} (d : dict V) : list string := map fst d.
Definition values {V} (d : dict V) : list V := map snd d.

(** [sum(d.values())] on a dictionary of floats: starts at 0 and adds the
    values in iteration order, each addition in binary64. *)
Definition sum_values (d : dict Q) : Q :=
  fold_left Float64.add (values d) 0%Q.

End Dict.

Import Dict.

(** ** Data model *)

(** A value of a [Dict[str, Any]] as the controller builds them. *)
Inductive PyVal : Type :=
| PyNone
| PyBool (b : bool)
| PyInt (z : Z)
| PyStr (s : string).

Definition py_opt_str (o : option string) : PyVal :=
  match o with Some s => PyStr s | None => PyNone end.

(** The exceptions the controller raises itself are [RuntimeError]s; the
    collaborators may raise anything. *)
Inductive PyExc : Type :=
| RuntimeError (msg : string)
| ZeroDivisionError
| OtherError (name msg : string).

Inductive Res (A : Type) : Type :=
| Ok (a : A)
| Raise (e : PyExc).
Arguments Ok {A} a.
Arguments Raise {A} e.

Record Action : Type := {
  problem_statement : string;
  llm_response : string;
  final_answer : option string;
  action_metadata : dict PyVal;
  timestamp : Z
}.

Record Observation : Type := {
  question : string;
  context : dict PyVal;
  metadata : option (dict PyVal)
}.

(** Modelled from the spec: the item type of the task source
    ([camel.datasets.base] is not part of the sources). An item has the
    fields [question], [final_answer], optional [rationale], optional
    [difficulty] and an optional metadata map; the sampler reads them with
    [getattr], so an absent attribute and [None] coincide, except for
    [metadata], whose default is the empty dictionary and whose value [None]
    is kept apart. *)
Record Datapoint : Type := {
  dp_question : option string;
  dp_final_answer : option string;
  dp_rationale : option string;
  dp_difficulty : option string;
  dp_metadata : option (dict PyVal)
}.

(** Modelled from the spec: the status of a verification outcome
    ([camel.verifiers.models] is not part of the sources). The controller
    only compares it with [SUCCESS]. *)
Inductive VerificationOutcome : Type := SUCCESS | FAILURE | ERROR | TIMEOUT.

Definition outcome_eqb (a b : VerificationOutcome) : bool :=
  match a, b with
  | SUCCESS, SUCCESS | FAILURE, FAILURE | ERROR, ERROR | TIMEOUT, TIMEOUT => true
  | _, _ => false
  end.

Record VerificationResult : Type := {
  status : VerificationOutcome;
  result : string
}.

Record VerifierInput : Type := {
  vi_llm_response : string;
  vi_ground_truth : option string
}.

(** The dictionary [self._state]; its five keys are fixed by
    [_get_initial_state]. *)
Record EpisodeState : Type := {
  current_datapoint : option Datapoint;
  attempts : Z;
  success_rate : Q;
  rewards : list (dict Q);
  termination_reason : option string
}.

(** The two shapes of [StepResult.info]. *)
Inductive Info : Type :=
| InfoReason (reason : string)
| InfoStep (extraction_result : string)
           (verification_result : VerificationResult)
           (step_index : Z) (state : EpisodeState).

(** [info.get("reason")] *)
Definition info_reason (i : Info) : option string :=
  match i with InfoReason r => Some r | InfoStep _ _ _ _ => None end.

Record StepResult : Type := {
  observation : Observation;
  reward : Q;
  rewards_dict : dict Q;
  done : bool;
  info : Info
}.

(** ** Collaborators and the trace of their calls *)

Inductive Collab : Type := CVerifier | CDataset | CExtractor | CTeacher.

Inductive Event : Type :=
| EvSetup (c : Collab)
| EvCleanup (c : Collab)
| EvExtract (response : string)
| EvVerify (input : VerifierInput)
| EvComputeReward (a : Action) (extraction : string) (v : VerificationResult)
| EvGenerate (n : Z).

Definition Trace : Type := list Event.

(** The constructor arguments of [BaseEnvironment]. An optional hook is
    [None] when [hasattr] fails ([teacher_reset]: when there is no teacher
    agent). [generate_new] returns the contents of the task source after
    the generation. *)
Record Config : Type := {
  max_steps : option Z;
  verifier_setup : option (Trace -> Res unit);
  dataset_setup : option (Trace -> Res unit);
  extractor_setup : option (Trace -> Res unit);
  teacher_reset : option (Trace -> Res unit);
  verifier_cleanup : option (Trace -> Res unit);
  dataset_cleanup : option (Trace -> Res unit);
  extractor_cleanup : option (Trace -> Res unit);
  extract : Trace -> string -> Res (option string);
  verify : Trace -> VerifierInput -> Res VerificationResult;
  _compute_reward :
    Trace -> Action -> string -> VerificationResult -> Res (dict Q);
  is_generative : bool;
  generate_new :
    Trace -> list (option Datapoint) -> Z -> Res (list (option Datapoint))
}.

(** The mutable part of [self]. An element [None] of [dataset] is an item
    that is falsy. *)
Record Env : Type := {
  dataset : list (option Datapoint);
  _is_setup : bool;
  _current_step : Z;
  _episode_ended : bool;
  _state : EpisodeState;
  _last_observation : option Observation;
  _episode_history : list (Observation * Action);
  trace : Trace
}.

Definition set_dataset (x : list (option Datapoint)) (e : Env) : Env :=
  {| dataset := x; _is_setup := _is_setup e;
     _current_step := _current_step e; _episode_ended := _episode_ended e;
     _state := _state e; _last_observation := _last_observation e;
     _episode_history := _episode_history e; trace := trace e |}.

Definition set_is_setup (x : bool) (e : Env) : Env :=
  {| dataset := dataset e; _is_setup := x;
     _current_step := _current_step e; _episode_ended := _episode_ended e;
     _state := _state e; _last_observation := _last_observation e;
     _episode_history := _episode_history e; trace := trace e |}.

Definition set_current_step (x : Z) (e : Env) : Env :=
  {| dataset := dataset e; _is_setup := _is_setup e;
     _current_step := x; _episode_ended := _episode_ended e;
     _state := _state e; _last_observation := _last_observation e;
     _episode_history := _episode_history e; trace := trace e |}.

Definition set_episode_ended (x : bool) (e : Env) : Env :=
  {| dataset := dataset e; _is_setup := _is_setup e;
     _current_step := _current_step e; _episode_ended := x;
     _state := _state e; _last_observation := _last_observation e;
     _episode_history := _episode_history e; trace := trace e |}.

Definition set_state (x : EpisodeState) (e : Env) : Env :=
  {| dataset := dataset e; _is_setup := _is_setup e;
     _current_step := _current_step e; _episode_ended := _episode_ended e;
     _state := x; _last_observation := _last_observation e;
     _episode_history := _episode_history e; trace := trace e |}.

Definition set_last_observation (x : option Observation) (e : Env) : Env :=
  {| dataset := dataset e; _is_setup := _is_setup e;
     _current_step := _current_step e; _episode_ended := _episode_ended e;
     _state := _state e; _last_observation := x;
     _episode_history := _episode_history e; trace := trace e |}.

Definition set_episode_history (x : list (Observation * Action)) (e : Env)
  : Env :=
  {| dataset := dataset e; _is_setup := _is_setup e;
     _current_step := _current_step e; _episode_ended := _episode_ended e;
     _state := _state e; _last_observation := _last_observation e;
     _episode_history := x; trace := trace e |}.

Definition set_trace (x : Trace) (e : Env) : Env :=
  {| dataset := dataset e; _is_setup := _is_setup e;
     _current_step := _current_step e; _episode_ended := _episode_ended e;
     _state := _state e; _last_observation := _last_observation e;
     _episode_history := _episode_history e; trace := x |}.

(** ** The monad of the operations: state, and exceptions that keep the
    state reached when they are raised. *)

Definition M (A : Type) : Type := Env -> Res A * Env.

Definition ret {A} (a : A) : M A := fun e => (Ok a, e).

Definition bind {A B} (m : M A) (k : A -> M B) : M B :=
  fun e =>
    match m e with
    | (Ok a, e') => k a e'
    | (Raise x, e') => (Raise x, e')
    end.

Definition raise {A} (x : PyExc) : M A := fun e => (Raise x, e).

Definition get_self : M Env := fun e => (Ok e, e).

Definition modify (f : Env -> Env) : M unit := fun e => (Ok tt, f e).

(** A call to a collaborator: the oracle answers from the trace so far, and
    the call is appended to the trace. *)
Definition call {A} (ev : Event) (f : Trace -> Res A) : M A :=
  fun e => (f (trace e), set_trace (trace e ++ [ev]) e).

(** [if hasattr(c, 'hook'): await c.hook()] *)
Definition call_optional (ev : Event) (h : option (Trace -> Res unit))
  : M unit :=
  match h with
  | Some f => call ev f
  | None => ret tt
  end.

Declare Scope env_scope.
Delimit Scope env_scope with env.
Notation "x <- m ;; k" := (bind m (fun x => k))
  (at level 61, m at next level, right associativity) : env_scope.
Notation "m ;; k" := (bind m (fun _ => k))
  (at level 61, right associativity) : env_scope.
Local Open Scope env_scope.

(** ** The operations of [BaseEnvironment] *)

(** [self._state["k"] = ...] for the keys the controller writes. *)
Definition state_set_current_datapoint (d : option Datapoint)
    (s : EpisodeState) : EpisodeState :=
  {| current_datapoint := d; attempts := attempts s;
     success_rate := success_rate s; rewards := rewards s;
     termination_reason := termination_reason s |}.

Definition state_set_success_rate (r : Q) (s : EpisodeState) : EpisodeState :=
  {| current_datapoint := current_datapoint s; attempts := attempts s;
     success_rate := r; rewards := rewards s;
     termination_reason := termination_reason s |}.

Definition state_append_rewards (r : dict Q) (s : EpisodeState)
  : EpisodeState :=
  {| current_datapoint := current_datapoint s; attempts := attempts s;
     success_rate := success_rate s; rewards := rewards s ++ [r];
     termination_reason := termination_reason s |}.

Definition _get_initial_state : EpisodeState :=
  {| current_datapoint := None; attempts := 0; success_rate := 0%Q;
     rewards := []; termination_reason := None |}.

(** [__init__]: the state of a new environment over a task source. *)
Definition init_env (ds : list (option Datapoint)) : Env :=
  {| dataset := ds; _is_setup := false; _current_step := 0;
     _episode_ended := false; _state := _get_initial_state;
     _last_observation := None; _episode_history := []; trace := [] |}.

Definition _get_terminal_observation (self : Env) : Observation :=
  {| question := "Episode completed";
     context := [];
     metadata := Some [("terminal", PyBool true);
                       ("final_step", PyInt (_current_step self))] |}.

(** Truthiness of an [Optional[str]]: [None] and the empty string are
    falsy. *)
Definition truthy_str (o : option string) : option string :=
  match o with
  | Some s => if String.eqb s "" then None else Some s
  | None => None
  end.

(** [str(n)] for an integer. *)
Definition str_of_int (n : Z) : string := NilZero.string_of_int (Z.to_int n).

Section Operations.

Context (cfg : Config).

(** [self.max_steps and self._current_step >= self.max_steps]: the
    condition is false without a budget and with the falsy budget 0. *)
Definition budget_reached (self : Env) : bool :=
  match max_steps cfg with
  | None => false
  | Some n => if n =? 0 then false else n <=? _current_step self
  end.

Definition _is_done (self : Env) : bool :=
  if budget_reached self then true else false.

Definition setup : M unit :=
  self <- get_self ;;
  if _is_setup self then ret tt
  else
    call_optional (EvSetup CVerifier) (verifier_setup cfg) ;;
    call_optional (EvSetup CDataset) (dataset_setup cfg) ;;
    call_optional (EvSetup CExtractor) (extractor_setup cfg) ;;
    call_optional (EvSetup CTeacher) (teacher_reset cfg) ;;
    modify (set_is_setup true).

Definition teardown : M unit :=
  self <- get_self ;;
  if negb (_is_setup self) then ret tt
  else
    call_optional (EvCleanup CVerifier) (verifier_cleanup cfg) ;;
    call_optional (EvCleanup CDataset) (dataset_cleanup cfg) ;;
    call_optional (EvCleanup CExtractor) (extractor_cleanup cfg) ;;
    modify (set_is_setup false).

(** The [try] block of [_get_next_observation]: the task source is read at
    [current_step % len(dataset)]; every failure gives the terminal
    observation. *)
Definition sample_observation (self : Env) : Observation * Env :=
  let n := Z.of_nat (List.length (dataset self)) in
  if n =? 0 then (_get_terminal_observation self, self)
  else
    let datapoint_idx := _current_step self mod n in
    match nth_error (dataset self) (Z.to_nat datapoint_idx) with
    | None => (_get_terminal_observation self, self)
    | Some None => (_get_terminal_observation self, self)
    | Some (Some datapoint) =>
        let self :=
          set_state (state_set_current_datapoint (Some datapoint)
                       (_state self)) self in
        match truthy_str (dp_question datapoint),
              truthy_str (dp_final_answer datapoint) with
        | Some q, Some fa =>
            match dp_metadata datapoint with
            | None => (_get_terminal_observation self, self)
            | Some md =>
                ({| question := q;
                    context :=
                      [("final_answer", PyStr fa);
                       ("difficulty", py_opt_str (dp_difficulty datapoint));
                       ("rationale", py_opt_str (dp_rationale datapoint))];
                    metadata :=
                      Some (union
                        [("step", PyInt (_current_step self));
                         ("datapoint_id", PyStr (str_of_int datapoint_idx));
                         ("verified",
                          match get "verified" md with
                          | Some v => v
                          | None => PyBool false
                          end)]
                        md) |}, self)
            end
        | _, _ => (_get_terminal_observation self, self)
        end
    end.

Definition _get_next_observation (self : Env) : Observation * Env :=
  if (Z.of_nat (List.length (dataset self)) =? 0) then
    if is_generative cfg then
      match call (EvGenerate 1)
              (fun t => generate_new cfg t (dataset self) 1) self with
      | (Ok ds, self) => sample_observation (set_dataset ds self)
      | (Raise _, self) => (_get_terminal_observation self, self)
      end
    else (_get_terminal_observation self, self)
  else sample_observation self.

(** [verification_success > 0.5] *)
Definition Qgt_bool (x y : Q) : bool := negb (Qle_bool x y).

Definition compute_reward (action : Action) (extraction_result : string)
    (verification_result : VerificationResult) : M (Q * dict Q) :=
  let verification_success : Q :=
    if outcome_eqb (status verification_result) SUCCESS then 1%Q else 0%Q in
  let rewards : dict Q :=
    set "correctness"
      (if Qgt_bool verification_success (1 # 2) then 1%Q else 0%Q) [] in
  modify (fun e => set_state (state_append_rewards rewards (_state e)) e) ;;
  self <- get_self ;;
  let total_attempts := attempts (_state self) + 1 in
  (if total_attempts =? 0 then raise ZeroDivisionError
   else
     modify (fun e =>
       set_state
         (state_set_success_rate
            ((success_rate (_state e) * inject_Z (total_attempts - 1)
              + verification_success) / inject_Z total_attempts)%Q
            (_state e)) e)) ;;
  further_rewards <-
    call (EvComputeReward action extraction_result verification_result)
      (fun t =>
         _compute_reward cfg t action extraction_result verification_result) ;;
  let rewards := union rewards further_rewards in
  ret (sum_values rewards, rewards).

Definition reset : M Observation :=
  self <- get_self ;;
  (if _is_setup self then ret tt else setup) ;;
  modify (set_current_step 0) ;;
  modify (set_episode_ended false) ;;
  modify (set_episode_history []) ;;
  modify (set_state _get_initial_state) ;;
  observation <- (fun e => let (o, e') := _get_next_observation e in
                           (Ok o, e')) ;;
  modify (set_last_observation (Some observation)) ;;
  ret observation.

Definition step (action : Action) : M StepResult :=
  self <- get_self ;;
  if budget_reached self then
    ret {| observation := _get_terminal_observation self;
           reward := 0%Q;
           rewards_dict := [];
           done := true;
           info := InfoReason "max_steps_reached" |}
  else if negb (_is_setup self) then
    raise (RuntimeError "Environment not set up. Call setup() first.")
  else if _episode_ended self then
    raise (RuntimeError "Episode has ended. Call reset() first.")
  else
    match _last_observation self with
    | None => raise (RuntimeError "No current observation. Call reset() first.")
    | Some current_obs =>
        modify (fun e => set_current_step (_current_step e + 1) e) ;;
        modify (fun e =>
          set_episode_history (_episode_history e ++ [(current_obs, action)])
            e) ;;
        extraction_result <-
          call (EvExtract (llm_response action))
            (fun t => extract cfg t (llm_response action)) ;;
        let extraction_result :=
          match extraction_result with Some s => s | None => "" end in
        let input := {| vi_llm_response := extraction_result;
                        vi_ground_truth := final_answer action |} in
        verification_result <-
          call (EvVerify input) (fun t => verify cfg t input) ;;
        tr <- compute_reward action extraction_result verification_result ;;
        self <- get_self ;;
        let done := _is_done self in
        next_obs <-
          (if done then ret (_get_terminal_observation self)
           else fun e => let (o, e') := _get_next_observation e in
                         (Ok o, e')) ;;
        modify (set_last_observation (Some next_obs)) ;;
        modify (set_episode_ended done) ;;
        self <- get_self ;;
        ret {| observation := next_obs;
               reward := fst tr;
               rewards_dict := snd tr;
               done := done;
               info := InfoStep extraction_result verification_result
                         (_current_step self) (_state self) |}
    end.

End Operations.

(** ** Runs of operations *)

(** The same configuration with another step budget. *)
Definition with_max_steps (m : option Z) (cfg : Config) : Config :=
  {| max_steps := m;
     verifier_setup := verifier_setup cfg;
     dataset_setup := dataset_setup cfg;
     extractor_setup := extractor_setup cfg;
     teacher_reset := teacher_reset cfg;
     verifier_cleanup := verifier_cleanup cfg;
     dataset_cleanup := dataset_cleanup cfg;
     extractor_cleanup := extractor_cleanup cfg;
     extract := extract cfg;
     verify := verify cfg;
     _compute_reward := _compute_reward cfg;
     is_generative := is_generative cfg;
     generate_new := generate_new cfg |}.

(** The four operations an orchestrator can call. *)
Inductive Op : Type :=
| OpSetup
| OpTeardown
| OpReset
| OpStep (action : Action).

(** The state at the exit of an operation, normal or by a raise. *)
Definition exit_state (cfg : Config) (op : Op) (self : Env) : Env :=
  match op with
  | OpSetup => snd (setup cfg self)
  | OpTeardown => snd (teardown cfg self)
  | OpReset => snd (reset cfg self)
  | OpStep action => snd (step cfg action self)
  end.

(** The states an environment can be in: the state after construction, and
    the state at the exit of any operation called in a reachable state. *)
Inductive reachable (cfg : Config) : Env -> Prop :=
| reachable_init (ds : list (option Datapoint)) : reachable cfg (init_env ds)
| reachable_op (op : Op) (self : Env) :
    reachable cfg self -> reachable cfg (exit_state cfg op self).

(** The state after a sequence of calls to [step], one per action. *)
Fixpoint after_steps (cfg : Config) (actions : list Action) (self : Env)
  : Env :=
  match actions with
  | [] => self
  | a :: rest => after_steps cfg rest (snd (step cfg a self))
  end.

(** The [StepResult] of the budget short circuit of [step]. *)
Definition budget_result (self : Env) : StepResult :=
  {| observation := _get_terminal_observation self;
     reward := 0%Q;
     rewards_dict := [];
     done := true;
     info := InfoReason "max_steps_reached" |}.

(** [observation.metadata["terminal"] is True] *)
Definition is_terminal (o : Observation) : bool :=
  match metadata o with
  | Some md =>
      match get "terminal" md with
      | Some (PyBool true) => true
      | _ => false
      end
  | None => false
  end.

(** ** Concrete collaborators for the examples *)

Definition item (q a : string) : option Datapoint :=
  Some {| dp_question := Some q; dp_final_answer := Some a;
          dp_rationale := None; dp_difficulty := None;
          dp_metadata := Some [] |}.

(** A verifier that compares the extracted text with the ground truth. *)
Definition exact_match (v : VerifierInput) : VerificationResult :=
  {| status :=
       match vi_ground_truth v with
       | Some g => if String.eqb (vi_llm_response v) g then SUCCESS
                   else FAILURE
       | None => FAILURE
       end;
     result := "" |}.

(** No optional hooks, the identity extractor, the exact-match verifier, a
    reward hook without components, a task source that is not generative. *)
Definition demo_cfg (budget : option Z) : Config :=
  {| max_steps := budget;
     verifier_setup := None; dataset_setup := None;
     extractor_setup := None; teacher_reset := None;
     verifier_cleanup := None; dataset_cleanup := None;
     extractor_cleanup := None;
     extract := fun _ s => Ok (Some s);
     verify := fun _ v => Ok (exact_match v);
     _compute_reward := fun _ _ _ _ => Ok [];
     is_generative := false;
     generate_new := fun _ ds _ => Ok ds |}.

Definition answer (response reference : string) : Action :=
  {| problem_statement := "p"; llm_response := response;
     final_answer := Some reference; action_metadata := []; timestamp := 0 |}.

Definition two_items : list (option Datapoint) :=
  [item "q0" "a0"; item "q1" "a1"].

(** [e'] differs from [e] at most in the task source, the state map and
    the trace: the fields of the controller proper are the same. *)
Definition same_control (e e' : Env) : Prop :=
  _is_setup e' = _is_setup e /\
  _current_step e' = _current_step e /\
  _episode_ended e' = _episode_ended e /\
  _last_observation e' = _last_observation e /\
  _episode_history e' = _episode_history e.

(** [s'] differs from [s] at most in the current datapoint. *)
Definition same_progress (s s' : EpisodeState) : Prop :=
  attempts s' = attempts s /\
  success_rate s' = success_rate s /\
  rewards s' = rewards s /\
  termination_reason s' = termination_reason s.

(** The base breakdown of the reward aggregator: the component
    [correctness] alone. *)
Definition base_rewards (vr : VerificationResult) : dict Q :=
  [("correctness", if outcome_eqb (status vr) SUCCESS then 1%Q else 0%Q)].

(** [extraction_result = "" if extraction_result is None] *)
Definition extraction_text (ex : option string) : string :=
  match ex with Some s => s | None => "" end.

(** The input [step] hands to the verifier. *)
Definition verifier_input (ex : option string) (a : Action) : VerifierInput :=
  {| vi_llm_response := extraction_text ex;
     vi_ground_truth := final_answer a |}.

(** The incremental-mean expression of [compute_reward], on the state
    before the step and the verification result. *)
Definition updated_success_rate (s : EpisodeState) (vr : VerificationResult)
  : Q :=
  ((success_rate s * inject_Z (attempts s + 1 - 1)
    + (if outcome_eqb (status vr) SUCCESS then 1 else 0))
   / inject_Z (attempts s + 1))%Q.

(** [e'] differs from [e] at most in [_is_setup] and the trace. *)
Definition same_episode (e e' : Env) : Prop :=
  dataset e' = dataset e /\
  _current_step e' = _current_step e /\
  _episode_ended e' = _episode_ended e /\
  _state e' = _state e /\
  _last_observation e' = _last_observation e /\
  _episode_history e' = _episode_history e.

(** A verifier whose cleanup hook fails. *)
Definition cleanup_fails_cfg : Config :=
  {| max_steps := None;
     verifier_setup := None; dataset_setup := None;
     extractor_setup := None; teacher_reset := None;
     verifier_cleanup :=
       Some (fun _ => Raise (OtherError "ConnectionError" "verifier is gone"));
     dataset_cleanup := None;
     extractor_cleanup := None;
     extract := fun _ s => Ok (Some s);
     verify := fun _ v => Ok (exact_match v);
     _compute_reward := fun _ _ _ _ => Ok [];
     is_generative := false;
     generate_new := fun _ ds _ => Ok ds |}.

(** A verifier whose setup hook fails. *)
Definition setup_fails_cfg : Config :=
  {| max_steps := None;
     verifier_setup :=
       Some (fun _ => Raise (OtherError "ConnectionError" "no verifier"));
     dataset_setup := None;
     extractor_setup := None; teacher_reset := None;
     verifier_cleanup := None; dataset_cleanup := None;
     extractor_cleanup := None;
     extract := fun _ s => Ok (Some s);
     verify := fun _ v => Ok (exact_match v);
     _compute_reward := fun _ _ _ _ => Ok [];
     is_generative := false;
     generate_new := fun _ ds _ => Ok ds |}.

(** An environment over a task source, set up and not yet reset. *)
Definition ready_env (ds : list (option Datapoint)) : Env :=
  set_is_setup true (init_env ds).

(** The reading of teardown under which [_is_setup] is cleared at every
    exit of a call made in the set-up state. *)
Definition teardown_always_clears (cfg : Config) (self : Env) : Prop :=
  _is_setup self = true -> _is_setup (snd (teardown cfg self)) = false.

(** The state [reset] prepares before it samples the first observation. *)
Definition episode_start (e : Env) : Env :=
  set_state _get_initial_state
    (set_episode_history []
       (set_episode_ended false (set_current_step 0 e))).

(** The invariant that ties the history to the step counter. *)
Definition history_matches_step (e : Env) : Prop :=
  Z.of_nat (List.length (_episode_history e)) = _current_step e.

(** An extractor that fails on every response. *)
Definition extractor_fails_cfg : Config :=
  {| max_steps := None;
     verifier_setup := None; dataset_setup := None;
     extractor_setup := None; teacher_reset := None;
     verifier_cleanup := None; dataset_cleanup := None;
     extractor_cleanup := None;
     extract := fun _ _ => Raise (OtherError "ValueError" "no answer found");
     verify := fun _ v => Ok (exact_match v);
     _compute_reward := fun _ _ _ _ => Ok [];
     is_generative := false;
     generate_new := fun _ ds _ => Ok ds |}.

(** A reward hook that adds a component and overrides [correctness]. *)
Definition shaping_cfg : Config :=
  {| max_steps := None;
     verifier_setup := None; dataset_setup := None;
     extractor_setup := None; teacher_reset := None;
     verifier_cleanup := None; dataset_cleanup := None;
     extractor_cleanup := None;
     extract := fun _ s => Ok (Some s);
     verify := fun _ v => Ok (exact_match v);
     _compute_reward :=
       fun _ _ _ _ => Ok [("style", (1 # 2)%Q); ("correctness", 5%Q)];
     is_generative := false;
     generate_new := fun _ ds _ => Ok ds |}.

(** The value of the base component for a verification result. *)
Definition correctness (vr : VerificationResult) : Q :=
  match status vr with SUCCESS => 1%Q | _ => 0%Q end.

(** The arithmetic mean of a list of correctness values. *)
Definition mean (cs : list Q) : Q :=
  (fold_left Qplus cs 0 / inject_Z (Z.of_nat (List.length cs)))%Q.

(** The reading of [step] under which a call made after a result with
    [done = true] raises. *)
Definition step_after_done_raises (cfg : Config) (self : Env) : Prop :=
  forall action, exists x self', step cfg action self = (Raise x, self').

(** The extractor, the verifier and the reward hook return normally on
    every call. *)
Definition collaborators_return (cfg : Config) : Prop :=
  (forall t s, exists ex, extract cfg t s = Ok ex) /\
  (forall t v, exists vr, verify cfg t v = Ok vr) /\
  (forall t a ex vr, exists d, _compute_reward cfg t a ex vr = Ok d).

(** A set-up environment at step [k] of an episode with budget [N], whose
    attempt counter is 0; below the budget the episode is open and has a
    current observation. *)
Definition in_episode (N k : Z) (self : Env) : Prop :=
  _is_setup self = true /\
  _current_step self = k /\
  attempts (_state self) = 0 /\
  (k < N -> _episode_ended self = false /\
            exists o, _last_observation self = Some o).

(** The reading of [step] under which the call that reaches the budget is
    itself the short circuit: reward 0, empty breakdown, the reason
    [max_steps_reached], and no collaborator called. *)
Definition budget_call_is_short_circuit (cfg : Config) (action : Action)
    (self : Env) : Prop :=
  exists r self',
    step cfg action self = (Ok r, self') /\
    done r = true /\
    (reward r == 0)%Q /\
    rewards_dict r = [] /\
    info_reason (info r) = Some "max_steps_reached" /\
    trace self' = trace self.

(** An item the sampler accepts: truthy, with a non-empty question and
    final answer, and a metadata map. *)
Definition valid_item (item : option Datapoint) : bool :=
  match item with
  | Some dp =>
      match truthy_str (dp_question dp), truthy_str (dp_final_answer dp),
            dp_metadata dp with
      | Some _, Some _, Some _ => true
      | _, _, _ => false
      end
  | None => false
  end.

(** The observation [o] was built from the item of [ds] at index [idx]: it
    carries the question and the final answer of that item, and the index
    as [datapoint_id] unless the metadata of the item has that key. *)
Definition served_from (ds : list (option Datapoint)) (idx : Z)
    (o : Observation) : Prop :=
  exists dp q fa md m,
    nth_error ds (Z.to_nat idx) = Some (Some dp) /\
    truthy_str (dp_question dp) = Some q /\
    truthy_str (dp_final_answer dp) = Some fa /\
    dp_metadata dp = Some md /\
    question o = q /\
    get "final_answer" (context o) = Some (PyStr fa) /\
    metadata o = Some m /\
    (get "datapoint_id" md = None ->
     get "datapoint_id" m = Some (PyStr (str_of_int idx))).

(** The state of an episode without budget over the task source [ds], after
    [k] steps: the environment is open, the current observation was built
    from the item at [k mod len(ds)], and the observation of the entry
    number [j] of the history from the item at [j mod len(ds)]. *)
Definition cyclic_episode (ds : list (option Datapoint)) (k : Z) (self : Env)
  : Prop :=
  let s := Z.of_nat (List.length ds) in
  dataset self = ds /\
  _is_setup self = true /\
  _episode_ended self = false /\
  _current_step self = k /\
  attempts (_state self) = 0 /\
  (exists o, _last_observation self = Some o /\ served_from ds (k mod s) o) /\
  Z.of_nat (List.length (_episode_history self)) = k /\
  (forall j o a,
     nth_error (_episode_history self) j = Some (o, a) ->
     served_from ds (Z.of_nat j mod s) o).




(** A generative task source whose generation fails, as a generation
    started from inside [reset] or [step] does. *)
Definition generation_fails_cfg : Config :=
  {| max_steps := None;
     verifier_setup := None; dataset_setup := None;
     extractor_setup := None; teacher_reset := None;
     verifier_cleanup := None; dataset_cleanup := None;
     extractor_cleanup := None;
     extract := fun _ s => Ok (Some s);
     verify := fun _ v => Ok (exact_match v);
     _compute_reward := fun _ _ _ _ => Ok [];
     is_generative := true;
     generate_new :=
       fun _ _ _ =>
         Raise (RuntimeError
                  "asyncio.run() cannot be called from a running event loop")
  |}.

(** ** Further definitions for the lifecycle and the runs *)

(** The event of an optional hook, when the collaborator has it. *)
Definition optional_event (ev : Event) (h : option (Trace -> Res unit))
  : list Event :=
  match h with Some _ => [ev] | None => [] end.

(** The hooks [setup] calls, in its order: verifier, task source, extractor,
    teacher agent. *)
Definition setup_events (cfg : Config) : list Event :=
  optional_event (EvSetup CVerifier) (verifier_setup cfg)
  ++ optional_event (EvSetup CDataset) (dataset_setup cfg)
  ++ optional_event (EvSetup CExtractor) (extractor_setup cfg)
  ++ optional_event (EvSetup CTeacher) (teacher_reset cfg).

(** The hooks [teardown] calls, in its order: verifier, task source,
    extractor. *)
Definition cleanup_events (cfg : Config) : list Event :=
  optional_event (EvCleanup CVerifier) (verifier_cleanup cfg)
  ++ optional_event (EvCleanup CDataset) (dataset_cleanup cfg)
  ++ optional_event (EvCleanup CExtractor) (extractor_cleanup cfg).

(** The states reached from construction without any call to [reset]. *)
Inductive reachable_without_reset (cfg : Config) : Env -> Prop :=
| without_reset_init (ds : list (option Datapoint)) :
    reachable_without_reset cfg (init_env ds)
| without_reset_setup (self : Env) :
    reachable_without_reset cfg self ->
    reachable_without_reset cfg (exit_state cfg OpSetup self)
| without_reset_teardown (self : Env) :
    reachable_without_reset cfg self ->
    reachable_without_reset cfg (exit_state cfg OpTeardown self)
| without_reset_step (action : Action) (self : Env) :
    reachable_without_reset cfg self ->
    reachable_without_reset cfg (exit_state cfg (OpStep action) self).

(** The state after a sequence of operations, each run to its exit. *)
Fixpoint run_ops (cfg : Config) (ops : list Op) (self : Env) : Env :=
  match ops with
  | [] => self
  | op :: rest => run_ops cfg rest (exit_state cfg op self)
  end.

(** [ev] is a request to the task source to generate. *)
Definition is_generate (ev : Event) : bool :=
  match ev with EvGenerate _ => true | _ => false end.

(** A breakdown that holds [correctness] alone, with value 0 or 1. *)
Definition is_base_breakdown (d : dict Q) : Prop :=
  d = [("correctness", 0%Q)] \/ d = [("correctness", 1%Q)].

(** All hooks present and returning, with a step budget of three. *)
Definition hooks_cfg : Config :=
  {| max_steps := Some 3;
     verifier_setup := Some (fun _ => Ok tt);
     dataset_setup := Some (fun _ => Ok tt);
     extractor_setup := Some (fun _ => Ok tt);
     teacher_reset := Some (fun _ => Ok tt);
     verifier_cleanup := Some (fun _ => Ok tt);
     dataset_cleanup := Some (fun _ => Ok tt);
     extractor_cleanup := Some (fun _ => Ok tt);
     extract := fun _ s => Ok (Some s);
     verify := fun _ v => Ok (exact_match v);
     _compute_reward := fun _ _ _ _ => Ok [];
     is_generative := false;
     generate_new := fun _ ds _ => Ok ds |}.

(** A verifier that raises on every call. *)
Definition verifier_fails_cfg : Config :=
  {| max_steps := None;
     verifier_setup := None; dataset_setup := None;
     extractor_setup := None; teacher_reset := None;
     verifier_cleanup := None; dataset_cleanup := None;
     extractor_cleanup := None;
     extract := fun _ s => Ok (Some s);
     verify := fun _ _ => Raise (OtherError "TimeoutError" "verifier");
     _compute_reward := fun _ _ _ _ => Ok [];
     is_generative := false;
     generate_new := fun _ ds _ => Ok ds |}.

(** A reward hook that raises on every call. *)
Definition hook_fails_cfg : Config :=
  {| max_steps := None;
     verifier_setup := None; dataset_setup := None;
     extractor_setup := None; teacher_reset := None;
     verifier_cleanup := None; dataset_cleanup := None;
     extractor_cleanup := None;
     extract := fun _ s => Ok (Some s);
     verify := fun _ v => Ok (exact_match v);
     _compute_reward :=
       fun _ _ _ _ => Raise (OtherError "TypeError" "unsupported operand");
     is_generative := false;
     generate_new := fun _ ds _ => Ok ds |}.

(** A generative task source that produces one item on request. *)
Definition generative_cfg : Config :=
  {| max_steps := None;
     verifier_setup := None; dataset_setup := None;
     extractor_setup := None; teacher_reset := None;
     verifier_cleanup := None; dataset_cleanup := None;
     extractor_cleanup := None;
     extract := fun _ s => Ok (Some s);
     verify := fun _ v => Ok (exact_match v);
     _compute_reward := fun _ _ _ _ => Ok [];
     is_generative := true;
     generate_new := fun _ ds _ => Ok (ds ++ [item "new" "answer"]) |}.

(** An item whose metadata sets [verified] and overrides [step]. *)
Definition tagged_item : option Datapoint :=
  Some {| dp_question := Some "q"; dp_final_answer := Some "a";
          dp_rationale := Some "because"; dp_difficulty := None;
          dp_metadata := Some [("verified", PyBool true);
                               ("step", PyStr "override")] |}.

(** An item without a question. *)
Definition broken_item : option Datapoint :=
  Some {| dp_question := None; dp_final_answer := Some "a";
          dp_rationale := None; dp_difficulty := None;
          dp_metadata := Some [] |}.

(** * Properties *)

(** ** Dictionaries *)

Lemma get_set_eq {V} (k : string) (v : V) (d : dict V) :
  get k (set k v d) = Some v.
Proof.
  induction d as [|[k' v'] d IH]; simpl.
  - now rewrite String.eqb_refl.
  - destruct (String.eqb k k') eqn:E; simpl.
    + now rewrite String.eqb_refl.
    + now rewrite E.
Qed.

Lemma get_set_neq {V} (k k0 : string) (v : V) (d : dict V) :
  k <> k0 -> get k (set k0 v d) = get k d.
Proof.
  intros Hne. induction d as [|[k' v'] d IH]; simpl.
  - destruct (String.eqb_spec k k0); [contradiction | reflexivity].
  - destruct (String.eqb_spec k0 k') as [->|Hk]; simpl.
    + destruct (String.eqb_spec k k'); [contradiction | reflexivity].
    + destruct (String.eqb_spec k k'); [reflexivity | exact IH].
Qed.

(** On a collision the right operand of [|] wins. *)
Lemma get_union {V} (k : string) (d2 d1 : dict V) :
  NoDup (keys d2) ->
  get k (union d1 d2) =
  match get k d2 with Some v => Some v | None => get k d1 end.
Proof.
  unfold union. revert d1.
  induction d2 as [|[k2 v2] d2 IH]; intros d1 Hnd; simpl.
  - reflexivity.
  - inversion Hnd as [|? ? Hnotin Hnd']; subst.
    rewrite IH by assumption.
    destruct (String.eqb_spec k k2) as [->|Hk].
    + assert (Hnone : get k2 d2 = None).
      { clear -Hnotin. induction d2 as [|[k' v'] d2 IH]; simpl; [reflexivity|].
        destruct (String.eqb_spec k2 k') as [->|].
        - exfalso. apply Hnotin. now left.
        - apply IH. intros Hin. apply Hnotin. now right. }
      rewrite Hnone. apply get_set_eq.
    + destruct (get k d2); [reflexivity|]. now apply get_set_neq.
Qed.

(** ** Frame properties of the sampler and of the reward aggregator *)

Ltac run :=
  unfold bind, ret, raise, get_self, modify, call_optional, call in *.

Lemma same_control_refl (e : Env) : same_control e e.
Proof. now repeat split. Qed.

Lemma same_control_trans (e1 e2 e3 : Env) :
  same_control e1 e2 -> same_control e2 e3 -> same_control e1 e3.
Proof.
  unfold same_control.
  intros (A1 & A2 & A3 & A4 & A5) (B1 & B2 & B3 & B4 & B5).
  repeat split; congruence.
Qed.

Lemma sample_observation_frame (self : Env) :
  same_control self (snd (sample_observation self)) /\
  trace (snd (sample_observation self)) = trace self /\
  dataset (snd (sample_observation self)) = dataset self /\
  same_progress (_state self) (_state (snd (sample_observation self))).
Proof.
  unfold sample_observation.
  destruct (Z.of_nat (List.length (dataset self)) =? 0);
    [now repeat split|].
  destruct (nth_error _ _) as [[dp|]|]; try (now repeat split).
  destruct (truthy_str (dp_question dp)), (truthy_str (dp_final_answer dp)),
    (dp_metadata dp); simpl; now repeat split.
Qed.

Lemma _get_next_observation_frame (cfg : Config) (self : Env) :
  same_control self (snd (_get_next_observation cfg self)) /\
  same_progress (_state self) (_state (snd (_get_next_observation cfg self))) /\
  exists generated,
    trace (snd (_get_next_observation cfg self)) = trace self ++ generated.
Proof.
  unfold _get_next_observation.
  destruct (Z.of_nat (List.length (dataset self)) =? 0).
  - destruct (is_generative cfg);
      [|repeat split; exists []; now rewrite app_nil_r].
    unfold call. destruct (generate_new cfg _ _ _) as [ds|x].
    + match goal with |- context [sample_observation ?e] =>
        destruct (sample_observation_frame e) as (A & B & _ & C) end.
      repeat split; try apply A; try apply C.
      exists [EvGenerate 1]. now rewrite B.
    + repeat split. now exists [EvGenerate 1].
  - destruct (sample_observation_frame self) as (A & B & _ & C).
    repeat split; try apply A; try apply C.
    exists []. now rewrite B, app_nil_r.
Qed.

Lemma compute_reward_frame (cfg : Config) (a : Action) (ex : string)
    (vr : VerificationResult) (self : Env) :
  same_control self (snd (compute_reward cfg a ex vr self)) /\
  dataset (snd (compute_reward cfg a ex vr self)) = dataset self.
Proof.
  unfold compute_reward. run. simpl.
  destruct (attempts (_state self) + 1 =? 0); simpl.
  - split; [now repeat split | reflexivity].
  - destruct (_compute_reward cfg _ a ex vr); simpl;
      (split; [now repeat split | reflexivity]).
Qed.

(** ** The reward aggregator and [step], case by case *)

Lemma compute_reward_inv (cfg : Config) (a : Action) (ex : string)
    (vr : VerificationResult) (self s1 : Env) (tr : Q * dict Q) :
  compute_reward cfg a ex vr self = (Ok tr, s1) ->
  exists further,
    _compute_reward cfg (trace self) a ex vr = Ok further /\
    tr = (sum_values (union (base_rewards vr) further),
          union (base_rewards vr) further) /\
    trace s1 = trace self ++ [EvComputeReward a ex vr] /\
    rewards (_state s1) = rewards (_state self) ++ [base_rewards vr] /\
    attempts (_state s1) = attempts (_state self) /\
    success_rate (_state s1) = updated_success_rate (_state self) vr.
Proof.
  unfold compute_reward, updated_success_rate. run. simpl.
  destruct (attempts (_state self) + 1 =? 0); simpl; [discriminate|].
  destruct (_compute_reward cfg _ a ex vr) as [further|x]; simpl;
    [|discriminate].
  intros [= <- <-]. exists further. simpl.
  unfold base_rewards.
  destruct (outcome_eqb (status vr) SUCCESS); simpl; now repeat split.
Qed.

Lemma budget_reached_current_step (cfg : Config) (e e' : Env) :
  _current_step e' = _current_step e ->
  budget_reached cfg e' = budget_reached cfg e.
Proof. unfold budget_reached. now intros ->. Qed.

Lemma step_budget (cfg : Config) (a : Action) (self : Env) :
  budget_reached cfg self = true ->
  step cfg a self = (Ok (budget_result self), self).
Proof. intros H. unfold step. run. now rewrite H. Qed.

Lemma step_not_setup (cfg : Config) (a : Action) (self : Env) :
  budget_reached cfg self = false ->
  _is_setup self = false ->
  step cfg a self =
  (Raise (RuntimeError "Environment not set up. Call setup() first."), self).
Proof. intros H1 H2. unfold step. run. now rewrite H1, H2. Qed.

Lemma step_episode_ended (cfg : Config) (a : Action) (self : Env) :
  budget_reached cfg self = false ->
  _is_setup self = true ->
  _episode_ended self = true ->
  step cfg a self =
  (Raise (RuntimeError "Episode has ended. Call reset() first."), self).
Proof. intros H1 H2 H3. unfold step. run. now rewrite H1, H2, H3. Qed.

Lemma step_no_observation (cfg : Config) (a : Action) (self : Env) :
  budget_reached cfg self = false ->
  _is_setup self = true ->
  _episode_ended self = false ->
  _last_observation self = None ->
  step cfg a self =
  (Raise (RuntimeError "No current observation. Call reset() first."), self).
Proof. intros H1 H2 H3 H4. unfold step. run. now rewrite H1, H2, H3, H4. Qed.

(** A call that passes the checks: what holds at its exit, whatever the
    outcome. *)
Lemma step_entered (cfg : Config) (a : Action) (self : Env) (o : Observation)
    (res : Res StepResult) (self' : Env) :
  budget_reached cfg self = false ->
  _is_setup self = true ->
  _episode_ended self = false ->
  _last_observation self = Some o ->
  step cfg a self = (res, self') ->
  _current_step self' = _current_step self + 1 /\
  _episode_history self' = _episode_history self ++ [(o, a)] /\
  _is_setup self' = true /\
  match res with
  | Ok r =>
      done r = budget_reached cfg self' /\
      _episode_ended self' = done r /\
      _last_observation self' = Some (observation r) /\
      info_reason (info r) = None
  | Raise x => _episode_ended self' = false /\ _last_observation self' = Some o
  end.
Proof.
  intros Hb Hs He Hl. unfold step. run. rewrite Hb, Hs, He, Hl. simpl.
  destruct (extract cfg (trace self) (llm_response a)) as [ex|x]; simpl.
  2:{ intros [= <- <-]. simpl. now repeat split. }
  destruct (verify cfg _ _) as [vr|x]; simpl.
  2:{ intros [= <- <-]. simpl. now repeat split. }
  match goal with |- context [compute_reward cfg a ?e ?v ?s] =>
    pose proof (compute_reward_frame cfg a e v s)
      as [(F1 & F2 & F3 & F4 & F5) _];
    destruct (compute_reward cfg a e v s) as [[tr|x] s1] end;
    simpl in F1, F2, F3, F4, F5.
  2:{ intros [= <- <-]. rewrite F1, F2, F3, F4, F5. now repeat split. }
  unfold _is_done.
  destruct (budget_reached cfg s1) eqn:Hd.
  - intros [= <- <-]. simpl. rewrite F1, F2, F5.
    repeat split; try reflexivity; try assumption.
    symmetry. rewrite <- Hd. now apply budget_reached_current_step.
  - pose proof (_get_next_observation_frame cfg s1)
      as ((G1 & G2 & G3 & G4 & G5) & _).
    destruct (_get_next_observation cfg s1) as [o0 e']. simpl in *.
    intros [= <- <-]. simpl. rewrite G1, G2, G5, F1, F2, F5.
    repeat split; try reflexivity; try assumption.
    symmetry. rewrite <- Hd. now apply budget_reached_current_step.
Qed.

(** A call that returned a result other than the budget short circuit ran
    the three collaborators; what they answered determines the result. *)
Lemma step_completed_inv (cfg : Config) (a : Action) (self self' : Env)
    (r : StepResult) :
  step cfg a self = (Ok r, self') ->
  info_reason (info r) = None ->
  exists o ex vr further generated,
    (budget_reached cfg self = false /\ _is_setup self = true /\
     _episode_ended self = false /\ _last_observation self = Some o) /\
    (extract cfg (trace self) (llm_response a) = Ok ex /\
     verify cfg (trace self ++ [EvExtract (llm_response a)])
       (verifier_input ex a) = Ok vr /\
     _compute_reward cfg
       ((trace self ++ [EvExtract (llm_response a)])
        ++ [EvVerify (verifier_input ex a)])
       a (extraction_text ex) vr = Ok further) /\
    (rewards_dict r = union (base_rewards vr) further /\
     reward r = sum_values (union (base_rewards vr) further) /\
     info r = InfoStep (extraction_text ex) vr (_current_step self + 1)
                (_state self')) /\
    (trace self' =
       (((trace self ++ [EvExtract (llm_response a)])
         ++ [EvVerify (verifier_input ex a)])
        ++ [EvComputeReward a (extraction_text ex) vr]) ++ generated /\
     (done r = true ->
      generated = [] /\ observation r = _get_terminal_observation self')) /\
    (rewards (_state self') = rewards (_state self) ++ [base_rewards vr] /\
     attempts (_state self') = attempts (_state self) /\
     success_rate (_state self') = updated_success_rate (_state self) vr).
Proof.
  unfold step. run.
  destruct (budget_reached cfg self) eqn:Hb; [intros [= <- <-]; discriminate|].
  destruct (_is_setup self) eqn:Hs; simpl; [|discriminate].
  destruct (_episode_ended self) eqn:He; [discriminate|].
  destruct (_last_observation self) as [o|] eqn:Hl; [|discriminate].
  destruct (extract cfg (trace self) (llm_response a)) as [ex|x] eqn:Hex;
    simpl; [|discriminate].
  destruct (verify cfg _ _) as [vr|x] eqn:Hvr; simpl; [|discriminate].
  match goal with |- context [compute_reward cfg a ?e ?v ?s] =>
    pose proof (compute_reward_frame cfg a e v s) as [(_ & F2 & _) _];
    destruct (compute_reward cfg a e v s) as [[tr|x] s1] eqn:Hcr end;
    simpl in F2; [|discriminate].
  apply compute_reward_inv in Hcr as (further & Hfu & -> & T & R1 & R2 & R3).
  simpl in Hfu, T, R1, R2, R3.
  unfold _is_done. destruct (budget_reached cfg s1) eqn:Hd.
  - intros [= <- <-] _. exists o, ex, vr, further, []. simpl.
    rewrite F2, T, app_nil_r. now repeat split.
  - pose proof (_get_next_observation_frame cfg s1)
      as ((_ & G2 & _) & (P1 & P2 & P3 & _) & generated & G).
    destruct (_get_next_observation cfg s1) as [o0 e']. simpl in *.
    intros [= <- <-] _. exists o, ex, vr, further, generated. simpl.
    rewrite G2, F2, G, T, P1, P2, P3. repeat split; auto; discriminate.
Qed.

(** ** Lifecycle: setup and teardown *)

Lemma same_episode_refl (e : Env) : same_episode e e.
Proof. now repeat split. Qed.

Lemma call_optional_inv (ev : Event) (h : option (Trace -> Res unit))
    (e e' : Env) (res : Res unit) :
  call_optional ev h e = (res, e') ->
  same_episode e e' /\ _is_setup e' = _is_setup e /\
  match res with
  | Ok _ => True
  | Raise x => exists hook, h = Some hook /\ hook (trace e) = Raise x
  end.
Proof.
  destruct h as [f|]; simpl; unfold call, ret; intros [= <- <-].
  - split; [now repeat split|]. split; [reflexivity|].
    destruct (f (trace e)) eqn:E; [exact I | now exists f].
  - split; [now repeat split|]. now split.
Qed.

Ltac hook_step H :=
  match goal with
  | |- context [call_optional ?ev ?h ?e] =>
      let res := fresh "res" in
      let e1 := fresh "e" in
      let E := fresh "E" in
      let S := fresh "S" in
      let I := fresh "I" in
      destruct (call_optional ev h e) as [res e1] eqn:E;
      apply call_optional_inv in E as ((? & ? & ? & ? & ? & ?) & I & H);
      destruct res as [[]|?]
  end.

Ltac frame := unfold same_episode; simpl; repeat split; congruence.

Lemma teardown_inv (cfg : Config) (self : Env) :
  _is_setup self = true ->
  same_episode self (snd (teardown cfg self)) /\
  match teardown cfg self with
  | (Ok _, self') => _is_setup self' = false
  | (Raise x, self') =>
      _is_setup self' = true /\
      exists hook t,
        In (Some hook)
          [verifier_cleanup cfg; dataset_cleanup cfg; extractor_cleanup cfg]
        /\ hook t = Raise x
  end.
Proof.
  intros Hs. unfold teardown, bind, get_self, modify. rewrite Hs. simpl.
  hook_step Hk1.
  2:{ destruct Hk1 as (hook & Hh & Hr). simpl.
      split; [frame|]. split; [congruence|].
      exists hook, (trace self). rewrite <- Hh. simpl. auto. }
  hook_step Hk2.
  2:{ destruct Hk2 as (hook & Hh & Hr). simpl.
      split; [frame|]. split; [congruence|].
      exists hook, (trace e). rewrite <- Hh. simpl. auto. }
  hook_step Hk3.
  2:{ destruct Hk3 as (hook & Hh & Hr). simpl.
      split; [frame|]. split; [congruence|].
      exists hook, (trace e0). rewrite <- Hh. simpl. auto. }
  simpl. split; [frame | reflexivity].
Qed.

Lemma setup_inv (cfg : Config) (self : Env) :
  same_episode self (snd (setup cfg self)) /\
  match setup cfg self with
  | (Ok _, self') => _is_setup self' = true
  | (Raise x, self') => _is_setup self = false /\ _is_setup self' = false
  end.
Proof.
  unfold setup, bind, get_self, modify, ret.
  destruct (_is_setup self) eqn:Hs; [now repeat split|].
  hook_step Hk1; [|simpl; split; [frame | split; congruence]].
  hook_step Hk2; [|simpl; split; [frame | split; congruence]].
  hook_step Hk3; [|simpl; split; [frame | split; congruence]].
  hook_step Hk4; [|simpl; split; [frame | split; congruence]].
  simpl. split; [frame | reflexivity].
Qed.

(** ** reset *)

Lemma reset_eq (cfg : Config) (self : Env) :
  reset cfg self =
  match (if _is_setup self then (Ok tt, self) else setup cfg self) with
  | (Ok _, e) =>
      let (o, e') := _get_next_observation cfg (episode_start e) in
      (Ok o, set_last_observation (Some o) e')
  | (Raise x, e) => (Raise x, e)
  end.
Proof.
  unfold reset, bind, get_self, modify, ret, episode_start.
  destruct (_is_setup self).
  - simpl. now destruct (_get_next_observation cfg _).
  - destruct (setup cfg self) as [[[]|x] e]; [|reflexivity].
    simpl. now destruct (_get_next_observation cfg _).
Qed.

Lemma reset_inv (cfg : Config) (self : Env) :
  match reset cfg self with
  | (Ok obs, self') =>
      _is_setup self' = true /\
      _current_step self' = 0 /\
      _episode_ended self' = false /\
      _episode_history self' = [] /\
      _last_observation self' = Some obs /\
      same_progress _get_initial_state (_state self')
  | (Raise x, self') =>
      _is_setup self = false /\ setup cfg self = (Raise x, self')
  end.
Proof.
  rewrite reset_eq.
  assert (Hcase :
    forall e, _is_setup e = true ->
      let (o, e') := _get_next_observation cfg (episode_start e) in
      _is_setup (set_last_observation (Some o) e') = true /\
      _current_step (set_last_observation (Some o) e') = 0 /\
      _episode_ended (set_last_observation (Some o) e') = false /\
      _episode_history (set_last_observation (Some o) e') = [] /\
      _last_observation (set_last_observation (Some o) e') = Some o /\
      same_progress _get_initial_state
        (_state (set_last_observation (Some o) e'))).
  { intros e He.
    pose proof (_get_next_observation_frame cfg (episode_start e))
      as ((G1 & G2 & G3 & _ & G5) & P & _).
    destruct (_get_next_observation cfg (episode_start e)) as [o e'].
    simpl in *. repeat split; try congruence; apply P. }
  destruct (_is_setup self) eqn:Hs.
  - specialize (Hcase self Hs).
    now destruct (_get_next_observation cfg (episode_start self)).
  - pose proof (setup_inv cfg self) as [_ Hsetup].
    destruct (setup cfg self) as [[[]|x] e].
    + specialize (Hcase e Hsetup).
      now destruct (_get_next_observation cfg (episode_start e)).
    + now split.
Qed.

Lemma teardown_frame (cfg : Config) (self : Env) :
  same_episode self (snd (teardown cfg self)).
Proof.
  destruct (_is_setup self) eqn:Hs.
  - now apply teardown_inv.
  - unfold teardown, bind, get_self, ret. rewrite Hs. apply same_episode_refl.
Qed.

(** ** Results of step and the step budget *)

Lemma step_done_budget (cfg : Config) (a : Action) (self self' : Env)
    (r : StepResult) :
  step cfg a self = (Ok r, self') ->
  done r = budget_reached cfg self'.
Proof.
  intros Hstep.
  destruct (budget_reached cfg self) eqn:Hb.
  - rewrite (step_budget cfg a self Hb) in Hstep.
    injection Hstep as <- <-. now rewrite Hb.
  - destruct (_is_setup self) eqn:Hs;
      [|rewrite step_not_setup in Hstep by assumption; discriminate].
    destruct (_episode_ended self) eqn:He;
      [rewrite step_episode_ended in Hstep by assumption; discriminate|].
    destruct (_last_observation self) as [o|] eqn:Hl;
      [|rewrite step_no_observation in Hstep by assumption; discriminate].
    now destruct (step_entered cfg a self o _ _ Hb Hs He Hl Hstep)
      as (_ & _ & _ & Hd & _).
Qed.

Lemma budget_reached_spec (cfg : Config) (self : Env) (n : Z) :
  max_steps cfg = Some n -> n <> 0 ->
  budget_reached cfg self = (n <=? _current_step self).
Proof.
  intros Hm Hn. unfold budget_reached. rewrite Hm.
  destruct (Z.eqb_spec n 0); [contradiction | reflexivity].
Qed.

(** C9. Whenever [step] takes the budget short circuit (a budget [n] is
    configured and [current_step] has reached it), it returns the terminal
    result with [done = true] and leaves the whole state as it was: current
    step, history, [episode_ended], last observation, state map, and also
    the task source and the trace of collaborator calls. In particular
    [episode_ended] keeps its value. *)
Theorem step_budget_short_circuit_frame (cfg : Config) (action : Action)
    (self : Env) (n : Z) :
  max_steps cfg = Some n -> n <> 0 -> n <= _current_step self ->
  step cfg action self = (Ok (budget_result self), self) /\
  done (budget_result self) = true /\
  _current_step (snd (step cfg action self)) = _current_step self /\
  _episode_history (snd (step cfg action self)) = _episode_history self /\
  _episode_ended (snd (step cfg action self)) = _episode_ended self /\
  _last_observation (snd (step cfg action self)) = _last_observation self /\
  _state (snd (step cfg action self)) = _state self.
Proof.
  intros Hm Hn Hle.
  assert (Hb : budget_reached cfg self = true).
  { rewrite (budget_reached_spec cfg self n Hm Hn). now apply Z.leb_le. }
  rewrite (step_budget cfg action self Hb). now repeat split.
Qed.

(** After reset and one completed step under a budget of one, the next call
    takes the short circuit. *)
Lemma step_budget_short_circuit_frame_witness :
  let cfg := demo_cfg (Some 1) in
  let self := after_steps cfg [answer "a0" "a0"]
                (snd (reset cfg (init_env two_items))) in
  step cfg (answer "a1" "a1") self = (Ok (budget_result self), self) /\
  _episode_ended (snd (step cfg (answer "a1" "a1") self)) = _episode_ended self.
Proof.
  intros cfg self.
  destruct (step_budget_short_circuit_frame cfg (answer "a1" "a1") self 1)
    as (H1 & _ & _ & _ & H2 & _).
  - reflexivity.
  - discriminate.
  - vm_compute. discriminate.
  - split; [exact H1 | exact H2].
Defined.

(** C10. With [max_steps = 0] the environment behaves as with no budget:
    the budget condition is false in every state, [_is_done] returns false,
    [step] and [reset] are the functions they are without a budget, and no
    [step] returns [done = true]. *)
Theorem max_steps_zero_is_no_budget (cfg : Config) (action : Action)
    (self : Env) :
  max_steps cfg = Some 0 ->
  budget_reached cfg self = false /\
  _is_done cfg self = false /\
  step cfg action self = step (with_max_steps None cfg) action self /\
  reset cfg self = reset (with_max_steps None cfg) self /\
  (forall r self', step cfg action self = (Ok r, self') -> done r = false).
Proof.
  intros Hm.
  assert (Hb : forall e, budget_reached cfg e = false).
  { intros e. unfold budget_reached. now rewrite Hm. }
  split; [apply Hb|]. split; [unfold _is_done; now rewrite Hb|].
  split; [|split].
  - destruct cfg; simpl in Hm; subst. reflexivity.
  - destruct cfg; simpl in Hm; subst. reflexivity.
  - intros r self' Hstep. rewrite (step_done_budget _ _ _ _ _ Hstep).
    apply Hb.
Qed.

Lemma max_steps_zero_is_no_budget_witness :
  let cfg := demo_cfg (Some 0) in
  let self := snd (reset cfg (init_env two_items)) in
  step cfg (answer "a0" "a0") self = step (demo_cfg None) (answer "a0" "a0") self
  /\ _is_done cfg self = false.
Proof.
  intros cfg self.
  destruct (max_steps_zero_is_no_budget cfg (answer "a0" "a0") self)
    as (_ & H2 & H3 & _).
  - reflexivity.
  - split; [exact H3 | exact H2].
Defined.

(** ** teardown and the set-up flag *)

(** C3, as stated, fails: when the cleanup hook of the verifier raises,
    teardown exits with [_is_setup] still true. *)
Lemma teardown_failure_keeps_is_setup :
  ~ teardown_always_clears cleanup_fails_cfg (ready_env two_items).
Proof.
  unfold teardown_always_clears. intros H.
  specialize (H eq_refl). vm_compute in H. discriminate.
Qed.

(** C3, amended. A call to teardown in the set-up state leaves [_is_setup]
    false when it returns normally. When a cleanup hook raises, the failure
    is re-raised and [_is_setup] stays true, so a retry of teardown calls
    the cleanup hooks again. In both cases the episode fields are left as
    they were. Where the environment is not set up, teardown does
    nothing. *)
Theorem teardown_is_setup (cfg : Config) (self : Env) :
  (_is_setup self = false -> teardown cfg self = (Ok tt, self)) /\
  (_is_setup self = true ->
   same_episode self (snd (teardown cfg self)) /\
   match teardown cfg self with
   | (Ok _, self') => _is_setup self' = false
   | (Raise x, self') =>
       _is_setup self' = true /\
       exists hook t,
         In (Some hook)
           [verifier_cleanup cfg; dataset_cleanup cfg; extractor_cleanup cfg]
         /\ hook t = Raise x
   end).
Proof.
  split.
  - intros Hs. unfold teardown, bind, get_self, ret. now rewrite Hs.
  - intros Hs. split.
    + apply teardown_frame.
    + now apply teardown_inv.
Qed.

Lemma teardown_is_setup_witness :
  _is_setup (snd (teardown cleanup_fails_cfg (ready_env two_items))) = true /\
  _is_setup (snd (teardown (demo_cfg None) (ready_env two_items))) = false.
Proof.
  split.
  - destruct (proj2 (teardown_is_setup cleanup_fails_cfg (ready_env two_items))
                eq_refl) as [_ H].
    destruct (teardown cleanup_fails_cfg (ready_env two_items))
      as [[u|x] e] eqn:E.
    + vm_compute in E. discriminate.
    + apply H.
  - destruct (proj2 (teardown_is_setup (demo_cfg None) (ready_env two_items))
                eq_refl) as [_ H].
    destruct (teardown (demo_cfg None) (ready_env two_items))
      as [[u|x] e] eqn:E.
    + apply H.
    + vm_compute in E. discriminate.
Defined.

(** ** reset on an empty task source *)

Lemma _get_next_observation_empty (cfg : Config) (self : Env) :
  dataset self = [] -> is_generative cfg = false ->
  _get_next_observation cfg self = (_get_terminal_observation self, self).
Proof.
  intros Hd Hg. unfold _get_next_observation. now rewrite Hd, Hg.
Qed.

(** C7. On an empty task source that is not generative, reset returns the
    terminal observation, whose metadata has [terminal = true]: the sampler
    absorbs the data error, and does not ask the source to generate. The
    only way reset can raise is the failure of its own lazy setup, before
    the sampler is reached; in a set-up environment it always returns. *)
Theorem reset_empty_source_terminal (cfg : Config) (self : Env) :
  dataset self = [] -> is_generative cfg = false ->
  ((forall x, fst (setup cfg self) <> Raise x) ->
   exists obs self',
     reset cfg self = (Ok obs, self') /\
     is_terminal obs = true /\
     metadata obs = Some [("terminal", PyBool true); ("final_step", PyInt 0)]
     /\ _last_observation self' = Some obs) /\
  (_is_setup self = true -> forall x, fst (setup cfg self) <> Raise x) /\
  (forall x self', reset cfg self = (Raise x, self') ->
     _is_setup self = false /\ setup cfg self = (Raise x, self')).
Proof.
  intros Hd Hg. split; [|split].
  - intros Hsetup. rewrite reset_eq.
    assert (Hcase : forall e, dataset e = [] ->
      exists obs self',
        (let (o, e') := _get_next_observation cfg (episode_start e) in
         (Ok o, set_last_observation (Some o) e')) = (Ok obs, self') /\
        is_terminal obs = true /\
        metadata obs =
          Some [("terminal", PyBool true); ("final_step", PyInt 0)] /\
        _last_observation self' = Some obs).
    { intros e He.
      rewrite (_get_next_observation_empty cfg (episode_start e) He Hg).
      eexists _, _. split; [reflexivity|]. now repeat split. }
    destruct (_is_setup self) eqn:Hs; [now apply Hcase|].
    pose proof (setup_inv cfg self) as [(Hds & _) _].
    destruct (setup cfg self) as [[[]|x] e].
    + apply Hcase. simpl in Hds. congruence.
    + exfalso. now apply (Hsetup x).
  - intros Hs x. unfold setup, bind, get_self, ret. now rewrite Hs.
  - intros x self' Hr. pose proof (reset_inv cfg self) as H.
    now rewrite Hr in H.
Qed.

Lemma reset_empty_source_terminal_witness :
  exists obs self',
    reset (demo_cfg None) (init_env []) = (Ok obs, self') /\
    is_terminal obs = true.
Proof.
  destruct (reset_empty_source_terminal (demo_cfg None) (init_env [])
              eq_refl eq_refl) as [H _].
  destruct H as (obs & self' & Hr & Ht & _).
  - intros x. vm_compute. discriminate.
  - exists obs, self'. split; [exact Hr | exact Ht].
Defined.

(** ** The history and the step counter *)

Lemma same_episode_history_matches (e e' : Env) :
  same_episode e e' -> history_matches_step e -> history_matches_step e'.
Proof.
  unfold history_matches_step. intros (_ & H1 & _ & _ & _ & H2). congruence.
Qed.

Lemma step_history_matches (cfg : Config) (a : Action) (self : Env) :
  history_matches_step self ->
  history_matches_step (snd (step cfg a self)).
Proof.
  intros Hinv.
  destruct (budget_reached cfg self) eqn:Hb;
    [now rewrite step_budget|].
  destruct (_is_setup self) eqn:Hs;
    [|now rewrite step_not_setup].
  destruct (_episode_ended self) eqn:He;
    [now rewrite step_episode_ended|].
  destruct (_last_observation self) as [o|] eqn:Hl;
    [|now rewrite step_no_observation].
  destruct (step cfg a self) as [res self'] eqn:Hstep.
  destruct (step_entered cfg a self o res self' Hb Hs He Hl Hstep)
    as (H1 & H2 & _).
  unfold history_matches_step in *. simpl.
  rewrite H1, H2, length_app. simpl. lia.
Qed.

Lemma exit_state_history_matches (cfg : Config) (op : Op) (self : Env) :
  history_matches_step self ->
  history_matches_step (exit_state cfg op self).
Proof.
  intros Hinv. destruct op as [| | |a]; simpl.
  - eapply same_episode_history_matches; [apply setup_inv | exact Hinv].
  - eapply same_episode_history_matches; [apply teardown_frame | exact Hinv].
  - pose proof (reset_inv cfg self) as H.
    destruct (reset cfg self) as [[obs|x] self']; simpl.
    + destruct H as (_ & H1 & _ & H2 & _).
      unfold history_matches_step. now rewrite H1, H2.
    + destruct H as [_ H].
      eapply same_episode_history_matches; [|exact Hinv].
      pose proof (setup_inv cfg self) as [Hf _]. now rewrite H in Hf.
  - now apply step_history_matches.
Qed.

(** C8. In every reachable state the length of the history is the current
    step. A reset that returns sets the counter to 0 and the history to
    empty. A step that passes the ordering checks adds one to the counter
    and appends the one pair (current observation, action), whatever its
    outcome; it does so before the first collaborator is called: when the
    extractor raises, the state at the exit is the state at the entry with
    the counter incremented, the pair appended and the call traced. *)
Theorem history_length_is_current_step (cfg : Config) :
  (forall self, reachable cfg self -> history_matches_step self) /\
  (forall self obs self',
     reset cfg self = (Ok obs, self') ->
     _current_step self' = 0 /\ _episode_history self' = []) /\
  (forall self action o,
     budget_reached cfg self = false -> _is_setup self = true ->
     _episode_ended self = false -> _last_observation self = Some o ->
     _current_step (snd (step cfg action self)) = _current_step self + 1 /\
     _episode_history (snd (step cfg action self)) =
       _episode_history self ++ [(o, action)]) /\
  (forall self action o x,
     budget_reached cfg self = false -> _is_setup self = true ->
     _episode_ended self = false -> _last_observation self = Some o ->
     extract cfg (trace self) (llm_response action) = Raise x ->
     step cfg action self =
     (Raise x,
      set_trace (trace self ++ [EvExtract (llm_response action)])
        (set_episode_history (_episode_history self ++ [(o, action)])
           (set_current_step (_current_step self + 1) self)))).
Proof.
  split; [|split; [|split]].
  - intros self Hr. induction Hr as [ds|op self _ IH].
    + reflexivity.
    + now apply exit_state_history_matches.
  - intros self obs self' Hr. pose proof (reset_inv cfg self) as H.
    rewrite Hr in H. now destruct H as (_ & H1 & _ & H2 & _).
  - intros self action o Hb Hs He Hl.
    destruct (step cfg action self) as [res self'] eqn:Hstep.
    destruct (step_entered cfg action self o res self' Hb Hs He Hl Hstep)
      as (H1 & H2 & _).
    now split.
  - intros self action o x Hb Hs He Hl Hx.
    unfold step. run. rewrite Hb, Hs, He, Hl. simpl. now rewrite Hx.
Qed.

(** The state at the exit of a step whose extractor raised. *)
Lemma history_length_is_current_step_witness :
  let cfg := extractor_fails_cfg in
  let self := exit_state cfg (OpStep (answer "a0" "a0"))
                (exit_state cfg OpReset (init_env two_items)) in
  history_matches_step self /\ _current_step self = 1.
Proof.
  intros cfg self. split.
  - apply (proj1 (history_length_is_current_step cfg)).
    unfold self. apply reachable_op. apply reachable_op. apply reachable_init.
  - reflexivity.
Defined.

(** ** The reward breakdown *)





(** ** The success rate and the attempt counter *)

Lemma compute_reward_attempts (cfg : Config) (a : Action) (ex : string)
    (vr : VerificationResult) (self : Env) :
  attempts (_state (snd (compute_reward cfg a ex vr self))) =
  attempts (_state self).
Proof.
  unfold compute_reward. run. simpl.
  destruct (attempts (_state self) + 1 =? 0); simpl; [reflexivity|].
  now destruct (_compute_reward cfg _ a ex vr).
Qed.

(** No exit of [step] changes the attempt counter: [compute_reward] reads
    it into the local [total_attempts] and never writes it back. *)
Lemma step_attempts (cfg : Config) (a : Action) (self : Env) :
  attempts (_state (snd (step cfg a self))) = attempts (_state self).
Proof.
  unfold step. run.
  destruct (budget_reached cfg self); [reflexivity|].
  destruct (_is_setup self); simpl; [|reflexivity].
  destruct (_episode_ended self); [reflexivity|].
  destruct (_last_observation self) as [o|]; [|reflexivity].
  destruct (extract cfg (trace self) (llm_response a)) as [ex|x]; simpl;
    [|reflexivity].
  destruct (verify cfg _ _) as [vr|x]; simpl; [|reflexivity].
  match goal with |- context [compute_reward cfg a ?e ?v ?s] =>
    pose proof (compute_reward_attempts cfg a e v s) as Ha;
    destruct (compute_reward cfg a e v s) as [[tr|x] s1] end;
    simpl in Ha; [|exact Ha].
  destruct (_is_done cfg s1); [exact Ha|].
  pose proof (_get_next_observation_frame cfg s1) as (_ & (P & _) & _).
  destruct (_get_next_observation cfg s1) as [o0 e']. simpl in *. congruence.
Qed.

Lemma reachable_attempts (cfg : Config) (self : Env) :
  reachable cfg self -> attempts (_state self) = 0.
Proof.
  induction 1 as [ds|op self _ IH]; [reflexivity|].
  destruct op as [| | |a]; simpl.
  - destruct (setup_inv cfg self) as [(_ & _ & _ & Hst & _) _]. congruence.
  - destruct (teardown_frame cfg self) as (_ & _ & _ & Hst & _). congruence.
  - pose proof (reset_inv cfg self) as H.
    destruct (reset cfg self) as [[obs|x] self']; simpl.
    + destruct H as (_ & _ & _ & _ & _ & (Ha & _)). exact Ha.
    + destruct H as [_ H].
      destruct (setup_inv cfg self) as [(_ & _ & _ & Hst & _) _].
      rewrite H in Hst. simpl in Hst. congruence.
  - now rewrite step_attempts.
Qed.

(** In a reachable state a completed step leaves the counter at 0 and sets
    the success rate to the correctness of that step alone. *)
Lemma completed_step_success_rate (cfg : Config) (a : Action)
    (self self' : Env) (r : StepResult) :
  reachable cfg self ->
  step cfg a self = (Ok r, self') ->
  info_reason (info r) = None ->
  exists vr,
    last (rewards (_state self')) [] = base_rewards vr /\
    (success_rate (_state self') == correctness vr)%Q /\
    attempts (_state self') = 0.
Proof.
  intros Hreach Hstep Hinfo.
  destruct (step_completed_inv cfg a self self' r Hstep Hinfo)
    as (o & ex & vr & further & generated & _ & _ & _ & _ & (R1 & R2 & R3)).
  pose proof (reachable_attempts cfg self Hreach) as Ha.
  exists vr. split; [|split].
  - rewrite R1. apply last_last.
  - rewrite R3. unfold updated_success_rate, correctness. rewrite Ha. simpl.
    destruct (status vr); simpl; field.
  - congruence.
Qed.

(** C2 at its scenario B (success on step 1 of 2 only): the two correctness
    values recorded are 1 and 0, the success rate is 1 after step 1 and 0
    after step 2, where the mean is 1/2, and the attempt counter is 0 after
    both steps. *)
Theorem success_rate_scenario_B :
  let cfg := demo_cfg None in
  let e0 := snd (reset cfg (init_env two_items)) in
  let e1 := snd (step cfg (answer "a0" "a0") e0) in
  let e2 := snd (step cfg (answer "zz" "a1") e1) in
  rewards (_state e2) = [[("correctness", 1%Q)]; [("correctness", 0%Q)]] /\
  (success_rate (_state e1) == 1)%Q /\
  (success_rate (_state e2) == 0)%Q /\
  (mean [1%Q; 0%Q] == 1 # 2)%Q /\
  ~ (success_rate (_state e2) == mean [1%Q; 0%Q])%Q /\
  attempts (_state e1) = 0 /\
  attempts (_state e2) = 0.
Proof.
  vm_compute. repeat split; try reflexivity; discriminate.
Qed.

(** ** step after the end of the episode *)

Lemma after_steps_budget (cfg : Config) (actions : list Action) (self : Env) :
  budget_reached cfg self = true ->
  after_steps cfg actions self = self.
Proof.
  intros Hb. induction actions as [|a rest IH]; simpl; [reflexivity|].
  now rewrite (step_budget cfg a self Hb).
Qed.

(** C4, as stated, fails: under a budget of one, the first step after reset
    returns [done = true], and the next call to [step] returns a result. *)
Lemma step_after_budget_done_returns :
  let cfg := demo_cfg (Some 1) in
  let e0 := snd (reset cfg (init_env two_items)) in
  (exists r, fst (step cfg (answer "a0" "a0") e0) = Ok r /\ done r = true) /\
  ~ step_after_done_raises cfg (snd (step cfg (answer "a0" "a0") e0)).
Proof.
  split.
  - eexists. split; [vm_compute; reflexivity | reflexivity].
  - intros H. destruct (H (answer "a1" "a1")) as (x & self' & Hx).
    vm_compute in Hx. discriminate.
Qed.

(** C4, amended. Once a call to [step] has returned [done = true], every
    further call to [step], after any number of such calls, returns the
    result of the budget short circuit and leaves the state as it is: the
    budget check comes before the ordering checks. The ordering error is
    raised where [episode_ended] is true and the budget condition is false.
    A reset that returns starts a new episode, with [episode_ended] false
    and the counter at 0. *)
Theorem steps_after_done_short_circuit (cfg : Config) :
  (forall self action r self',
     step cfg action self = (Ok r, self') -> done r = true ->
     forall further action',
       step cfg action' (after_steps cfg further self') =
       (Ok (budget_result self'), self')) /\
  (forall self action,
     _episode_ended self = true -> budget_reached cfg self = false ->
     step cfg action self =
     (Raise (RuntimeError
               (if _is_setup self
                then "Episode has ended. Call reset() first."
                else "Environment not set up. Call setup() first.")),
      self)) /\
  (forall self obs self',
     reset cfg self = (Ok obs, self') ->
     _episode_ended self' = false /\ _current_step self' = 0).
Proof.
  split; [|split].
  - intros self action r self' Hstep Hdone further action'.
    assert (Hb : budget_reached cfg self' = true).
    { rewrite <- (step_done_budget cfg action self self' r Hstep).
      exact Hdone. }
    rewrite (after_steps_budget cfg further self' Hb).
    now apply step_budget.
  - intros self action He Hb. destruct (_is_setup self) eqn:Hs.
    + now apply step_episode_ended.
    + now apply step_not_setup.
  - intros self obs self' Hr. pose proof (reset_inv cfg self) as H.
    rewrite Hr in H. now destruct H as (_ & H1 & H2 & _).
Qed.

Lemma steps_after_done_short_circuit_witness :
  let cfg := demo_cfg (Some 1) in
  let e0 := snd (reset cfg (init_env two_items)) in
  let e1 := snd (step cfg (answer "a0" "a0") e0) in
  _episode_ended e1 = true /\
  step cfg (answer "a1" "a1") (after_steps cfg [answer "zz" "a1"] e1) =
  (Ok (budget_result e1), e1).
Proof.
  intros cfg e0 e1. split; [reflexivity|]. subst e1.
  destruct (step cfg (answer "a0" "a0") e0) as [[r|x] e] eqn:E;
    [|vm_compute in E; discriminate].
  simpl snd.
  apply (proj1 (steps_after_done_short_circuit cfg) e0 (answer "a0" "a0") r e E).
  vm_compute in E. injection E as <- _. reflexivity.
Defined.

(** ** Episodes under a step budget *)

(** With collaborators that return, a call that passes the checks
    completes. *)
Lemma step_completes (cfg : Config) (a : Action) (self : Env)
    (o : Observation) :
  collaborators_return cfg ->
  budget_reached cfg self = false ->
  _is_setup self = true ->
  _episode_ended self = false ->
  _last_observation self = Some o ->
  attempts (_state self) = 0 ->
  exists r self',
    step cfg a self = (Ok r, self') /\ info_reason (info r) = None.
Proof.
  intros (Hex & Hvr & Hfu) Hb Hs He Hl Ha.
  unfold step, compute_reward. run. rewrite Hb, Hs, He, Hl. simpl.
  destruct (Hex (trace self) (llm_response a)) as [ex ->]. simpl.
  match goal with |- context [verify cfg ?t ?v] =>
    destruct (Hvr t v) as [vr ->] end. simpl.
  rewrite Ha. simpl.
  match goal with |- context [_compute_reward cfg ?t a ?e vr] =>
    destruct (Hfu t a e vr) as [further ->] end. simpl.
  match goal with |- context [_is_done cfg ?s] =>
    destruct (_is_done cfg s) end.
  - eexists _, _. split; reflexivity.
  - match goal with |- context [_get_next_observation cfg ?s] =>
      destruct (_get_next_observation cfg s) as [o0 e'] end.
    eexists _, _. split; reflexivity.
Qed.

Lemma step_in_episode (cfg : Config) (N k : Z) (a : Action) (self : Env) :
  max_steps cfg = Some N -> collaborators_return cfg ->
  0 <= k < N -> in_episode N k self ->
  in_episode N (k + 1) (snd (step cfg a self)) /\
  exists r self',
    step cfg a self = (Ok r, self') /\
    done r = (N <=? k + 1) /\
    info_reason (info r) = None.
Proof.
  intros Hm Hc Hk (Hs & Hcs & Ha & Hopen).
  destruct (Hopen (proj2 Hk)) as (He & o & Hl).
  assert (HN : N <> 0) by lia.
  assert (Hb : budget_reached cfg self = false).
  { rewrite (budget_reached_spec cfg self N Hm HN), Hcs.
    apply Z.leb_gt. lia. }
  destruct (step_completes cfg a self o Hc Hb Hs He Hl Ha)
    as (r & self' & Hstep & Hinfo).
  destruct (step_entered cfg a self o _ _ Hb Hs He Hl Hstep)
    as (H1 & _ & H3 & Hd & Hend & Hlast & _).
  assert (Hdone : done r = (N <=? k + 1)).
  { rewrite Hd, (budget_reached_spec cfg self' N Hm HN), H1, Hcs.
    reflexivity. }
  split.
  - rewrite Hstep. simpl. repeat split.
    + exact H3.
    + now rewrite H1, Hcs.
    + rewrite <- Ha, <- (step_attempts cfg a self). now rewrite Hstep.
    + rewrite Hend, Hdone. apply Z.leb_gt. assumption.
    + now exists (observation r).
  - now exists r, self'.
Qed.

Lemma after_steps_in_episode (cfg : Config) (N : Z) (actions : list Action) :
  max_steps cfg = Some N -> collaborators_return cfg ->
  forall k self,
    0 <= k <= N -> 1 <= N -> in_episode N k self ->
    in_episode N (Z.min (k + Z.of_nat (List.length actions)) N)
      (after_steps cfg actions self).
Proof.
  intros Hm Hc. induction actions as [|a rest IH]; intros k self Hk HN Hin.
  - simpl. rewrite Z.add_0_r, Z.min_l by lia. exact Hin.
  - destruct (Z.eq_dec k N) as [->|Hne].
    + assert (Hb : budget_reached cfg self = true).
      { rewrite (budget_reached_spec cfg self N Hm) by lia.
        destruct Hin as (_ & -> & _). apply Z.leb_refl. }
      rewrite (after_steps_budget cfg (a :: rest) self Hb).
      rewrite Z.min_r by lia. exact Hin.
    + simpl after_steps.
      destruct (step_in_episode cfg N k a self Hm Hc) as [Hin' _];
        [lia | exact Hin |].
      replace (k + Z.of_nat (List.length (a :: rest)))
        with ((k + 1) + Z.of_nat (List.length rest))
        by (simpl List.length; lia).
      apply IH; [lia | lia | exact Hin'].
Qed.

Lemma reset_in_episode (cfg : Config) (N : Z) (self0 self1 : Env)
    (obs : Observation) :
  reset cfg self0 = (Ok obs, self1) -> in_episode N 0 self1.
Proof.
  intros Hr. pose proof (reset_inv cfg self0) as H. rewrite Hr in H.
  destruct H as (H1 & H2 & H3 & _ & H5 & (Ha & _)).
  repeat split; try assumption. now exists obs.
Qed.

(** C1, as stated, fails: under a budget of one, the first call to [step]
    after reset is not the short circuit; it runs the collaborators and
    returns their reward. *)
Lemma budget_call_is_a_completed_step :
  ~ budget_call_is_short_circuit (demo_cfg (Some 1)) (answer "a0" "a0")
      (snd (reset (demo_cfg (Some 1)) (init_env two_items))).
Proof.
  intros (r & self' & Hstep & _ & _ & Hd & _).
  vm_compute in Hstep. injection Hstep as <- _. discriminate.
Qed.

(** C1, amended. Under a budget [N >= 1], in an episode started by reset
    and with collaborators that return, the call number [k] to [step]:
    - for [k < N], returns [done = false];
    - for [k = N], is a completed step that returns [done = true]: the
      extractor, the verifier and the reward aggregator are called, in this
      order and nothing else, the breakdown is the base breakdown merged
      with the hook's components, the reward is its sum, the observation is
      the terminal one, and [info] has no reason;
    - for [k > N], is the budget short circuit: [done = true], reward 0, an
      empty breakdown, the reason [max_steps_reached], and the state, the
      trace of collaborator calls included, is left as it is. *)
Theorem budget_steps (cfg : Config) (N : Z) (self0 self1 : Env)
    (obs : Observation) :
  1 <= N -> max_steps cfg = Some N -> collaborators_return cfg ->
  reset cfg self0 = (Ok obs, self1) ->
  forall (actions : list Action) (action : Action),
    let k := Z.of_nat (List.length actions) + 1 in
    let self := after_steps cfg actions self1 in
    (k < N ->
     exists r self', step cfg action self = (Ok r, self') /\ done r = false) /\
    (k = N ->
     exists r self' ex vr further,
       step cfg action self = (Ok r, self') /\
       done r = true /\
       info_reason (info r) = None /\
       rewards_dict r = union (base_rewards vr) further /\
       reward r = sum_values (rewards_dict r) /\
       observation r = _get_terminal_observation self' /\
       trace self' =
         trace self ++ [EvExtract (llm_response action);
                        EvVerify (verifier_input ex action);
                        EvComputeReward action (extraction_text ex) vr]) /\
    (N < k ->
     step cfg action self = (Ok (budget_result self), self) /\
     done (budget_result self) = true /\
     reward (budget_result self) = 0%Q /\
     rewards_dict (budget_result self) = [] /\
     info_reason (info (budget_result self)) = Some "max_steps_reached").
Proof.
  intros HN Hm Hc Hr actions action k self.
  assert (H0 : 0 <= 0 <= N) by lia.
  pose proof (after_steps_in_episode cfg N actions Hm Hc 0 self1
                H0 HN (reset_in_episode cfg N self0 self1 obs Hr))
    as Hin.
  fold self in Hin. rewrite Z.add_0_l in Hin. subst k.
  split; [|split].
  - intros Hk. rewrite Z.min_l in Hin by lia.
    assert (Hrange : 0 <= Z.of_nat (List.length actions) < N) by lia.
    destruct (step_in_episode cfg N _ action self Hm Hc Hrange Hin)
      as (_ & r & self' & Hstep & Hd & _).
    exists r, self'. split; [exact Hstep|].
    rewrite Hd. apply Z.leb_gt. lia.
  - intros Hk. rewrite Z.min_l in Hin by lia.
    assert (Hrange : 0 <= Z.of_nat (List.length actions) < N) by lia.
    destruct (step_in_episode cfg N _ action self Hm Hc Hrange Hin)
      as (_ & r & self' & Hstep & Hd & Hinfo).
    assert (Hdone : done r = true) by (rewrite Hd; apply Z.leb_le; lia).
    destruct (step_completed_inv cfg action self self' r Hstep Hinfo)
      as (o & ex & vr & further & generated & _ & _ & (Hrd & Hrw & _)
          & (Ht & Hgen) & _).
    destruct (Hgen Hdone) as [-> Hobs].
    exists r, self', ex, vr, further.
    repeat split; try assumption.
    + now rewrite Hrw, Hrd.
    + rewrite Ht, app_nil_r, <- !app_assoc. reflexivity.
  - intros Hk. rewrite Z.min_r in Hin by lia.
    assert (Hb : budget_reached cfg self = true).
    { rewrite (budget_reached_spec cfg self N Hm) by lia.
      destruct Hin as (_ & -> & _). apply Z.leb_refl. }
    rewrite (step_budget cfg action self Hb). now repeat split.
Qed.

(** Budget 2: the second call completes with [done = true] and the reward
    of a correct answer. *)
Lemma budget_steps_witness :
  let cfg := demo_cfg (Some 2) in
  let self1 := snd (reset cfg (init_env two_items)) in
  exists r self',
    step cfg (answer "a1" "a1")
      (after_steps cfg [answer "a0" "a0"] self1) = (Ok r, self') /\
    done r = true /\ info_reason (info r) = None.
Proof.
  intros cfg self1.
  assert (Hc : collaborators_return cfg).
  { repeat split; intros; eexists; reflexivity. }
  destruct (reset cfg (init_env two_items)) as [[obs|x] e] eqn:Hr;
    [|vm_compute in Hr; discriminate].
  destruct (budget_steps cfg 2 (init_env two_items) e obs ltac:(lia)
              eq_refl Hc Hr [answer "a0" "a0"] (answer "a1" "a1"))
    as (_ & H & _).
  destruct (H eq_refl) as (r & self' & _ & _ & _ & Hstep & Hd & Hi & _).
  exists r, self'. subst self1. simpl snd. now repeat split.
Defined.

(** ** The observation sampler *)

Lemma get_union_absent {V} (k : string) (d2 d1 : dict V) :
  get k d2 = None -> get k (union d1 d2) = get k d1.
Proof.
  unfold union. revert d1.
  induction d2 as [|[k2 v2] d2 IH]; intros d1 Hnone; simpl; [reflexivity|].
  simpl in Hnone. destruct (String.eqb_spec k k2) as [->|Hk]; [discriminate|].
  rewrite IH by assumption. now apply get_set_neq.
Qed.

Lemma _get_next_observation_nonempty (cfg : Config) (self : Env) :
  dataset self <> [] ->
  _get_next_observation cfg self = sample_observation self.
Proof.
  intros Hne. unfold _get_next_observation.
  destruct (dataset self) as [|i ds]; [contradiction | reflexivity].
Qed.

Lemma sample_index_in_range (ds : list (option Datapoint)) (k : Z) :
  ds <> [] ->
  0 <= k mod Z.of_nat (List.length ds) < Z.of_nat (List.length ds) /\
  exists item,
    nth_error ds (Z.to_nat (k mod Z.of_nat (List.length ds))) = Some item.
Proof.
  intros Hne.
  assert (Hpos : 0 < Z.of_nat (List.length ds)).
  { destruct ds; [contradiction | simpl List.length; lia]. }
  pose proof (Z.mod_pos_bound k _ Hpos) as Hb. split; [exact Hb|].
  destruct (nth_error ds (Z.to_nat (k mod Z.of_nat (List.length ds))))
    as [item|] eqn:E; [now exists item|].
  apply nth_error_None in E. lia.
Qed.

Lemma sample_observation_valid (self : Env) :
  dataset self <> [] ->
  forallb valid_item (dataset self) = true ->
  served_from (dataset self)
    (_current_step self mod Z.of_nat (List.length (dataset self)))
    (fst (sample_observation self)).
Proof.
  intros Hne Hall.
  destruct (sample_index_in_range (dataset self) (_current_step self) Hne)
    as (Hr & item & Hnth).
  assert (Hv : valid_item item = true).
  { rewrite forallb_forall in Hall. apply Hall.
    eapply nth_error_In. exact Hnth. }
  unfold sample_observation.
  destruct (Z.eqb_spec (Z.of_nat (List.length (dataset self))) 0); [lia|].
  rewrite Hnth. destruct item as [dp|]; [|discriminate]. simpl in Hv.
  destruct (truthy_str (dp_question dp)) as [q|] eqn:Hq; [|discriminate].
  destruct (truthy_str (dp_final_answer dp)) as [fa|] eqn:Hfa; [|discriminate].
  destruct (dp_metadata dp) as [md|] eqn:Hmd; [|discriminate].
  simpl. exists dp, q, fa, md. eexists.
  repeat split; try eassumption; try reflexivity.
  intros Hnone. rewrite get_union_absent by assumption. reflexivity.
Qed.

(** A completed step that is not done takes its observation from the
    sampler, run at the incremented step over the same task source. *)
Lemma step_next_observation (cfg : Config) (a : Action) (self self' : Env)
    (r : StepResult) :
  step cfg a self = (Ok r, self') ->
  done r = false ->
  exists s1,
    dataset s1 = dataset self /\
    _current_step s1 = _current_step self + 1 /\
    observation r = fst (_get_next_observation cfg s1) /\
    dataset self' = dataset (snd (_get_next_observation cfg s1)).
Proof.
  unfold step. run.
  destruct (budget_reached cfg self) eqn:Hb; [intros [= <- <-]; discriminate|].
  destruct (_is_setup self) eqn:Hs; simpl; [|discriminate].
  destruct (_episode_ended self) eqn:He; [discriminate|].
  destruct (_last_observation self) as [o|] eqn:Hl; [|discriminate].
  destruct (extract cfg (trace self) (llm_response a)) as [ex|x] eqn:Hex;
    simpl; [|discriminate].
  destruct (verify cfg _ _) as [vr|x] eqn:Hvr; simpl; [|discriminate].
  match goal with |- context [compute_reward cfg a ?e ?v ?s] =>
    pose proof (compute_reward_frame cfg a e v s) as [(_ & F2 & _) FD];
    destruct (compute_reward cfg a e v s) as [[tr|x] s1] end;
    simpl in F2, FD; [|discriminate].
  destruct (_is_done cfg s1); [intros [= <- <-]; discriminate|].
  destruct (_get_next_observation cfg s1) as [o0 e'] eqn:Hs1.
  intros [= <- <-] _. exists s1. rewrite Hs1. now repeat split.
Qed.

Lemma step_cyclic_episode (cfg : Config) (ds : list (option Datapoint))
    (k : Z) (a : Action) (self : Env) :
  max_steps cfg = None -> collaborators_return cfg ->
  ds <> [] -> forallb valid_item ds = true ->
  cyclic_episode ds k self ->
  cyclic_episode ds (k + 1) (snd (step cfg a self)) /\
  map snd (_episode_history (snd (step cfg a self))) =
    map snd (_episode_history self) ++ [a].
Proof.
  intros Hm Hc Hne Hall (Hds & Hs & He & Hcs & Ha & (o & Hl & Ho) & Hlen & Hh).
  assert (Hb : forall e, budget_reached cfg e = false).
  { intros e. unfold budget_reached. now rewrite Hm. }
  destruct (step_completes cfg a self o Hc (Hb self) Hs He Hl Ha)
    as (r & self' & Hstep & Hinfo).
  destruct (step_entered cfg a self o _ _ (Hb self) Hs He Hl Hstep)
    as (H1 & H2 & H3 & Hd & Hend & Hlast & _).
  rewrite Hb in Hd.
  destruct (step_next_observation cfg a self self' r Hstep Hd)
    as (s1 & Hds1 & Hcs1 & Hobs & Hds').
  assert (Hne1 : dataset s1 <> []) by congruence.
  rewrite (_get_next_observation_nonempty cfg s1 Hne1) in Hobs, Hds'.
  destruct (sample_observation_frame s1) as (_ & _ & Hsd & _).
  rewrite Hstep. simpl. split.
  - unfold cyclic_episode. repeat split.
    + congruence.
    + exact H3.
    + congruence.
    + congruence.
    + rewrite <- Ha, <- (step_attempts cfg a self). now rewrite Hstep.
    + exists (observation r). split; [exact Hlast|].
      rewrite Hobs.
      replace ds with (dataset s1) by congruence.
      replace (k + 1) with (_current_step s1) by congruence.
      apply sample_observation_valid; [exact Hne1 | congruence].
    + rewrite H2, length_app. simpl. lia.
    + intros j o' a' Hj. rewrite H2 in Hj.
      destruct (Nat.lt_ge_cases j (List.length (_episode_history self)))
        as [Hlt|Hge].
      * rewrite nth_error_app1 in Hj by assumption. eapply Hh. exact Hj.
      * rewrite nth_error_app2 in Hj by assumption.
        destruct (j - List.length (_episode_history self))%nat as [|j']
          eqn:Ej; simpl in Hj.
        -- injection Hj as <- <-.
           replace (Z.of_nat j) with k by lia. exact Ho.
        -- now destruct j'.
  - rewrite H2, map_app. reflexivity.
Qed.

Lemma after_steps_cyclic_episode (cfg : Config) (ds : list (option Datapoint))
    (actions : list Action) :
  max_steps cfg = None -> collaborators_return cfg ->
  ds <> [] -> forallb valid_item ds = true ->
  forall k self,
    cyclic_episode ds k self ->
    cyclic_episode ds (k + Z.of_nat (List.length actions))
      (after_steps cfg actions self) /\
    map snd (_episode_history (after_steps cfg actions self)) =
      map snd (_episode_history self) ++ actions.
Proof.
  intros Hm Hc Hne Hall.
  induction actions as [|a rest IH]; intros k self Hin; simpl after_steps.
  - simpl. rewrite Z.add_0_r, app_nil_r. now split.
  - destruct (step_cyclic_episode cfg ds k a self Hm Hc Hne Hall Hin)
      as [Hin' Hmap].
    destruct (IH (k + 1) _ Hin') as [Hin'' Hmap'].
    split.
    + replace (k + Z.of_nat (List.length (a :: rest)))
        with ((k + 1) + Z.of_nat (List.length rest))
        by (simpl List.length; lia).
      exact Hin''.
    + rewrite Hmap', Hmap, <- app_assoc. reflexivity.
Qed.

Lemma reset_cyclic_episode (cfg : Config) (self0 self1 : Env)
    (obs : Observation) :
  dataset self0 <> [] -> forallb valid_item (dataset self0) = true ->
  reset cfg self0 = (Ok obs, self1) ->
  cyclic_episode (dataset self0) 0 self1 /\
  served_from (dataset self0) 0 obs.
Proof.
  intros Hne Hall Hr.
  pose proof (reset_inv cfg self0) as Hinv. rewrite Hr in Hinv.
  destruct Hinv as (H1 & H2 & H3 & H4 & H5 & (Ha & _)).
  rewrite reset_eq in Hr.
  assert (Hcase : forall e, dataset e = dataset self0 ->
    (let (o, e') := _get_next_observation cfg (episode_start e) in
     (Ok o, set_last_observation (Some o) e')) = (Ok obs, self1) ->
    dataset self1 = dataset self0 /\ served_from (dataset self0) 0 obs).
  { intros e He Heq.
    assert (Hne' : dataset (episode_start e) <> []) by (simpl; congruence).
    rewrite (_get_next_observation_nonempty cfg _ Hne') in Heq.
    pose proof (sample_observation_valid (episode_start e) Hne') as Hsv.
    destruct (sample_observation_frame (episode_start e)) as (_ & _ & Hsd & _).
    destruct (sample_observation (episode_start e)) as [o e'].
    injection Heq as <- <-. simpl in *. split; [congruence|].
    rewrite He in Hsv. rewrite Z.mod_0_l in Hsv.
    - now apply Hsv.
    - destruct (dataset self0); [contradiction | simpl List.length; lia]. }
  assert (Hboth : dataset self1 = dataset self0 /\
                  served_from (dataset self0) 0 obs).
  { destruct (_is_setup self0).
    - now apply (Hcase self0).
    - pose proof (setup_inv cfg self0) as [(Hds & _) _].
      destruct (setup cfg self0) as [[[]|x] e]; [|discriminate].
      now apply (Hcase e). }
  destruct Hboth as [Hds Hserved]. split; [|exact Hserved].
  unfold cyclic_episode. repeat split; try assumption.
  - exists obs. split; [exact H5|]. now rewrite Z.mod_0_l
      by (destruct (dataset self0); [contradiction | simpl List.length; lia]).
  - now rewrite H4.
  - rewrite H4. intros [|j] o a Hj; discriminate.
Qed.

Lemma sample_observation_item (self : Env) (item : option Datapoint) :
  dataset self <> [] ->
  nth_error (dataset self)
    (Z.to_nat (_current_step self mod Z.of_nat (List.length (dataset self))))
  = Some item ->
  (valid_item item = true ->
   served_from (dataset self)
     (_current_step self mod Z.of_nat (List.length (dataset self)))
     (fst (sample_observation self)) /\
   current_datapoint (_state (snd (sample_observation self))) = item) /\
  (valid_item item = false ->
   fst (sample_observation self) = _get_terminal_observation self).
Proof.
  intros Hne Hnth.
  destruct (sample_index_in_range (dataset self) (_current_step self) Hne)
    as (Hr & _).
  unfold sample_observation.
  destruct (Z.eqb_spec (Z.of_nat (List.length (dataset self))) 0); [lia|].
  rewrite Hnth. destruct item as [dp|]; simpl valid_item.
  2:{ split; [discriminate | reflexivity]. }
  destruct (truthy_str (dp_question dp)) as [q|] eqn:Hq;
    [|split; [discriminate | reflexivity]].
  destruct (truthy_str (dp_final_answer dp)) as [fa|] eqn:Hfa;
    [|split; [discriminate | reflexivity]].
  destruct (dp_metadata dp) as [md|] eqn:Hmd;
    [|split; [discriminate | reflexivity]].
  split; [|discriminate]. intros _. simpl. split; [|reflexivity].
  exists dp, q, fa, md. eexists.
  repeat split; try eassumption; try reflexivity.
  intros Hnone. rewrite get_union_absent by assumption. reflexivity.
Qed.

(** C6. On a non-empty task source of size [s] the sampler reads the item
    at index [current_step mod s], which exists: a valid item becomes the
    current datapoint and the observation is built from it, any other item
    gives the terminal observation. In an episode without budget over a
    source of valid items, with collaborators that return, the history
    after any sequence of steps pairs the actions, in order, with
    observations of which the one of step [j + 1] was built from the item
    at index [j mod s]: items are reused cyclically. With a source of two
    items, steps 1, 2, 3 are served the items at indices 0, 1, 0. *)
Theorem sampler_is_cyclic (cfg : Config) :
  (forall self,
     dataset self <> [] ->
     let s := Z.of_nat (List.length (dataset self)) in
     let idx := _current_step self mod s in
     0 <= idx < s /\
     exists item,
       nth_error (dataset self) (Z.to_nat idx) = Some item /\
       (valid_item item = true ->
        served_from (dataset self) idx (fst (_get_next_observation cfg self))
        /\ current_datapoint (_state (snd (_get_next_observation cfg self)))
           = item) /\
       (valid_item item = false ->
        fst (_get_next_observation cfg self) = _get_terminal_observation self))
  /\
  (forall self0 obs self1 actions,
     max_steps cfg = None -> collaborators_return cfg ->
     dataset self0 <> [] -> forallb valid_item (dataset self0) = true ->
     reset cfg self0 = (Ok obs, self1) ->
     map snd (_episode_history (after_steps cfg actions self1)) = actions /\
     forall j o a,
       nth_error (_episode_history (after_steps cfg actions self1)) j
       = Some (o, a) ->
       served_from (dataset self0)
         (Z.of_nat j mod Z.of_nat (List.length (dataset self0))) o)
  /\
  (forall self0 obs self1 a1 a2 a3,
     max_steps cfg = None -> collaborators_return cfg ->
     List.length (dataset self0) = 2%nat ->
     forallb valid_item (dataset self0) = true ->
     reset cfg self0 = (Ok obs, self1) ->
     exists o1 o2 o3,
       _episode_history (after_steps cfg [a1; a2; a3] self1) =
         [(o1, a1); (o2, a2); (o3, a3)] /\
       served_from (dataset self0) 0 o1 /\
       served_from (dataset self0) 1 o2 /\
       served_from (dataset self0) 0 o3).
Proof.
  assert (Hrun : forall self0 obs self1 actions,
     max_steps cfg = None -> collaborators_return cfg ->
     dataset self0 <> [] -> forallb valid_item (dataset self0) = true ->
     reset cfg self0 = (Ok obs, self1) ->
     cyclic_episode (dataset self0) (Z.of_nat (List.length actions))
       (after_steps cfg actions self1) /\
     map snd (_episode_history (after_steps cfg actions self1)) = actions).
  { intros self0 obs self1 actions Hm Hc Hne Hall Hr.
    destruct (reset_cyclic_episode cfg self0 self1 obs Hne Hall Hr)
      as [Hin _].
    destruct (after_steps_cyclic_episode cfg (dataset self0) actions
                Hm Hc Hne Hall 0 self1 Hin) as [Hin' Hmap].
    rewrite Z.add_0_l in Hin'. split; [exact Hin'|].
    rewrite Hmap. destruct Hin as (_ & _ & _ & _ & _ & _ & Hlen & _).
    destruct (_episode_history self1); [reflexivity | simpl in Hlen; lia]. }
  split; [|split].
  - intros self Hne s idx.
    destruct (sample_index_in_range (dataset self) (_current_step self) Hne)
      as (Hr & item & Hnth).
    split; [exact Hr|]. exists item. split; [exact Hnth|].
    rewrite (_get_next_observation_nonempty cfg self Hne).
    now apply sample_observation_item.
  - intros self0 obs self1 actions Hm Hc Hne Hall Hr.
    destruct (Hrun self0 obs self1 actions Hm Hc Hne Hall Hr)
      as [(_ & _ & _ & _ & _ & _ & _ & Hh) Hmap].
    split; [exact Hmap | exact Hh].
  - intros self0 obs self1 a1 a2 a3 Hm Hc Hlen2 Hall Hr.
    assert (Hne : dataset self0 <> []).
    { intros E. rewrite E in Hlen2. discriminate. }
    destruct (Hrun self0 obs self1 [a1; a2; a3] Hm Hc Hne Hall Hr)
      as [(_ & _ & _ & _ & _ & _ & Hlen & Hh) Hmap].
    rewrite Hlen2 in Hh.
    destruct (_episode_history (after_steps cfg [a1; a2; a3] self1))
      as [|[o1 b1] [|[o2 b2] [|[o3 b3] [|p rest]]]]; try discriminate.
    simpl in Hmap. injection Hmap as -> -> ->.
    exists o1, o2, o3. split; [reflexivity|].
    split; [|split].
    + exact (Hh 0%nat o1 a1 eq_refl).
    + exact (Hh 1%nat o2 a2 eq_refl).
    + exact (Hh 2%nat o3 a3 eq_refl).
Qed.

(** Two items, no budget: the questions of steps 1, 2, 3 are those of the
    items 0, 1, 0, with the datapoint ids 0, 1, 0. *)
Lemma sampler_is_cyclic_witness :
  let cfg := demo_cfg None in
  exists o1 o2 o3,
    _episode_history
      (after_steps cfg [answer "a0" "a0"; answer "zz" "a1"; answer "a0" "a0"]
         (snd (reset cfg (init_env two_items)))) =
      [(o1, answer "a0" "a0"); (o2, answer "zz" "a1"); (o3, answer "a0" "a0")]
    /\ served_from two_items 0 o1
    /\ served_from two_items 1 o2
    /\ served_from two_items 0 o3
    /\ map question [o1; o2; o3] = ["q0"; "q1"; "q0"].
Proof.
  intros cfg.
  assert (Hc : collaborators_return cfg).
  { repeat split; intros; eexists; reflexivity. }
  destruct (reset cfg (init_env two_items)) as [[obs|x] e] eqn:Hr;
    [|vm_compute in Hr; discriminate].
  destruct (proj2 (proj2 (sampler_is_cyclic cfg)) (init_env two_items) obs e
              (answer "a0" "a0") (answer "zz" "a1") (answer "a0" "a0")
              eq_refl Hc eq_refl eq_refl Hr)
    as (o1 & o2 & o3 & Hh & H1 & H2 & H3).
  exists o1, o2, o3. simpl snd.
  repeat split; try assumption.
  vm_compute in Hr. injection Hr as _ <-.
  vm_compute in Hh. injection Hh as <- <- <-. reflexivity.
Defined.

(** * Further properties of the controller *)

(** ** The order of the lifecycle hooks *)

Ltac destruct_hook_calls :=
  repeat match goal with
  | |- context [match ?h ?t with Ok _ => _ | Raise _ => _ end] =>
      destruct (h t) as [[]|?]; simpl
  end.

Ltac prefix_of_length n :=
  exists n; simpl; repeat split; try lia; rewrite <- ?app_assoc; reflexivity.

Ltac prefix_of_calls :=
  first [ prefix_of_length 1%nat | prefix_of_length 2%nat
        | prefix_of_length 3%nat | prefix_of_length 4%nat ].

(** X1. A call to setup in a state that is not set up calls the setup hooks
    the collaborators have, in the order verifier, task source, extractor,
    teacher agent. When it returns, every one of them has been called once
    and [_is_setup] is true. When it raises, the calls made are a non-empty
    prefix of that list, the hooks after the failing one are not called,
    and [_is_setup] is false. *)
Theorem setup_calls_hooks_in_order (cfg : Config) (self self' : Env)
    (res : Res unit) :
  _is_setup self = false ->
  setup cfg self = (res, self') ->
  match res with
  | Ok _ =>
      trace self' = trace self ++ setup_events cfg /\ _is_setup self' = true
  | Raise _ =>
      _is_setup self' = false /\
      exists n,
        (1 <= n <= List.length (setup_events cfg))%nat /\
        trace self' = trace self ++ firstn n (setup_events cfg)
  end.
Proof.
  intros Hs. unfold setup, setup_events, bind, get_self, modify, ret,
    call_optional, call.
  rewrite Hs.
  destruct (verifier_setup cfg) as [h1|], (dataset_setup cfg) as [h2|],
    (extractor_setup cfg) as [h3|], (teacher_reset cfg) as [h4|];
    simpl; destruct_hook_calls; intros [= <- <-]; simpl;
    try (split; [rewrite <- ?app_assoc, ?app_nil_r; reflexivity
                | reflexivity]);
    (split; [assumption | prefix_of_calls]).
Qed.

Lemma setup_calls_hooks_in_order_witness :
  trace (snd (setup hooks_cfg (init_env two_items))) =
  [EvSetup CVerifier; EvSetup CDataset; EvSetup CExtractor; EvSetup CTeacher].
Proof.
  destruct (setup hooks_cfg (init_env two_items)) as [[u|x] e] eqn:E;
    [|vm_compute in E; discriminate].
  exact (proj1 (setup_calls_hooks_in_order hooks_cfg (init_env two_items) e
                  (Ok u) eq_refl E)).
Defined.

(** X2. A call to teardown in the set-up state calls the cleanup hooks the
    collaborators have, in the order verifier, task source, extractor, and
    never touches the teacher agent. When it returns, every one of them has
    been called once; when it raises, the calls made are a non-empty prefix
    of that list. *)
Theorem teardown_calls_hooks_in_order (cfg : Config) (self self' : Env)
    (res : Res unit) :
  _is_setup self = true ->
  teardown cfg self = (res, self') ->
  match res with
  | Ok _ => trace self' = trace self ++ cleanup_events cfg
  | Raise _ =>
      exists n,
        (1 <= n <= List.length (cleanup_events cfg))%nat /\
        trace self' = trace self ++ firstn n (cleanup_events cfg)
  end.
Proof.
  intros Hs. unfold teardown, cleanup_events, bind, get_self, modify, ret,
    call_optional, call.
  rewrite Hs.
  destruct (verifier_cleanup cfg) as [h1|], (dataset_cleanup cfg) as [h2|],
    (extractor_cleanup cfg) as [h3|];
    simpl; destruct_hook_calls; intros [= <- <-]; simpl;
    try (rewrite <- ?app_assoc, ?app_nil_r; reflexivity);
    prefix_of_calls.
Qed.

Lemma teardown_calls_hooks_in_order_witness :
  trace (snd (teardown hooks_cfg (ready_env two_items))) =
  [EvCleanup CVerifier; EvCleanup CDataset; EvCleanup CExtractor].
Proof.
  destruct (teardown hooks_cfg (ready_env two_items)) as [[u|x] e] eqn:E;
    [|vm_compute in E; discriminate].
  exact (teardown_calls_hooks_in_order hooks_cfg (ready_env two_items) e
           (Ok u) eq_refl E).
Defined.

(** ** Composition of the lifecycle operations *)

(** X3. setup and teardown are idempotent: after a setup that returned, a
    second setup returns at once and leaves the state, the trace included,
    as it is, so no hook is called twice; the same holds for teardown after
    a teardown that returned. *)
Theorem lifecycle_idempotent (cfg : Config) (self self' : Env) (u : unit) :
  (setup cfg self = (Ok u, self') -> setup cfg self' = (Ok tt, self')) /\
  (teardown cfg self = (Ok u, self') -> teardown cfg self' = (Ok tt, self')).
Proof.
  split; intros H.
  - pose proof (setup_inv cfg self) as [_ Hs]. rewrite H in Hs.
    unfold setup, bind, get_self, ret. now rewrite Hs.
  - assert (Hs : _is_setup self' = false).
    { destruct (_is_setup self) eqn:E.
      - pose proof (teardown_inv cfg self E) as [_ Ht]. now rewrite H in Ht.
      - unfold teardown, bind, get_self, ret in H. rewrite E in H.
        simpl in H. now injection H as _ <-. }
    unfold teardown, bind, get_self, ret. now rewrite Hs.
Qed.

Lemma lifecycle_idempotent_witness :
  setup hooks_cfg (snd (setup hooks_cfg (init_env two_items))) =
  (Ok tt, snd (setup hooks_cfg (init_env two_items))).
Proof.
  destruct (setup hooks_cfg (init_env two_items)) as [[u|x] e] eqn:E;
    [|vm_compute in E; discriminate].
  exact (proj1 (lifecycle_idempotent hooks_cfg (init_env two_items) e u) E).
Defined.

Lemma env_same_up_to_trace (e e' : Env) :
  same_episode e e' -> _is_setup e' = _is_setup e ->
  e' = set_trace (trace e') e.
Proof.
  destruct e, e'. unfold same_episode. simpl.
  intros (-> & -> & -> & -> & -> & ->) ->. reflexivity.
Qed.

(** X4. The lifecycle flag is independent of the episode: a teardown that
    returns followed by a setup that returns, in a set-up state, gives back
    the state it started from, but for the trace of calls. The counter, the
    history, the current observation and the state map of a running episode
    survive the round trip. *)
Theorem teardown_setup_round_trip (cfg : Config) (self s1 s2 : Env)
    (u v : unit) :
  _is_setup self = true ->
  teardown cfg self = (Ok u, s1) ->
  setup cfg s1 = (Ok v, s2) ->
  s2 = set_trace (trace s2) self.
Proof.
  intros Hs Ht Hsetup.
  pose proof (teardown_frame cfg self) as F1. rewrite Ht in F1.
  pose proof (setup_inv cfg s1) as [F2 Hs2]. rewrite Hsetup in F2, Hs2.
  simpl in F1, F2. apply env_same_up_to_trace.
  - unfold same_episode in *.
    destruct F1 as (A1 & A2 & A3 & A4 & A5 & A6).
    destruct F2 as (B1 & B2 & B3 & B4 & B5 & B6).
    repeat split; congruence.
  - congruence.
Qed.

Lemma teardown_setup_round_trip_witness :
  let self := snd (step hooks_cfg (answer "a0" "a0")
                     (snd (reset hooks_cfg (init_env two_items)))) in
  let s2 := snd (setup hooks_cfg (snd (teardown hooks_cfg self))) in
  s2 = set_trace (trace s2) self /\ _current_step s2 = 1.
Proof.
  intros self s2. split; [|reflexivity].
  pose (s1 := snd (teardown hooks_cfg self)).
  assert (Et : teardown hooks_cfg self = (Ok tt, s1)) by reflexivity.
  assert (Es : setup hooks_cfg s1 = (Ok tt, s2)) by reflexivity.
  exact (teardown_setup_round_trip hooks_cfg self s1 s2 tt tt eq_refl Et Es).
Defined.

(** X5. reset sets up lazily: where an explicit setup returns, reset in the
    state before it and reset in the state after it are the same call, and
    where the setup of an environment that is not set up raises, reset
    raises the same exception at the same state, before it has touched the
    episode. *)
Theorem reset_is_setup_then_reset (cfg : Config) (self s1 : Env) :
  (forall u, setup cfg self = (Ok u, s1) -> reset cfg self = reset cfg s1) /\
  (forall x, _is_setup self = false -> setup cfg self = (Raise x, s1) ->
             reset cfg self = (Raise x, s1)).
Proof.
  split.
  - intros u H. pose proof (setup_inv cfg self) as [_ Hs]. rewrite H in Hs.
    rewrite !reset_eq, Hs.
    destruct (_is_setup self) eqn:E.
    + unfold setup, bind, get_self, ret in H. rewrite E in H.
      now injection H as _ <-.
    + now rewrite H.
  - intros x Hs H. now rewrite reset_eq, Hs, H.
Qed.

Lemma reset_is_setup_then_reset_witness :
  reset hooks_cfg (init_env two_items) =
  reset hooks_cfg (snd (setup hooks_cfg (init_env two_items))) /\
  reset setup_fails_cfg (init_env two_items) =
  (Raise (OtherError "ConnectionError" "no verifier"),
   snd (setup setup_fails_cfg (init_env two_items))).
Proof.
  split.
  - destruct (setup hooks_cfg (init_env two_items)) as [[u|x] e] eqn:E;
      [|vm_compute in E; discriminate].
    exact (proj1 (reset_is_setup_then_reset hooks_cfg (init_env two_items) e)
             u E).
  - destruct (setup setup_fails_cfg (init_env two_items)) as [[u|x] e] eqn:E;
      [vm_compute in E; discriminate|].
    assert (Hx : x = OtherError "ConnectionError" "no verifier").
    { vm_compute in E. now injection E as <- _. }
    rewrite <- Hx.
    exact (proj2 (reset_is_setup_then_reset setup_fails_cfg
                    (init_env two_items) e) x eq_refl E).
Defined.

(** ** Invariants of the reachable states *)

(** An induction principle for properties of the episode fields. *)
Lemma reachable_invariant (cfg : Config) (P : Env -> Prop) :
  (forall ds, P (init_env ds)) ->
  (forall e e', same_episode e e' -> P e -> P e') ->
  (forall e obs e', P e -> reset cfg e = (Ok obs, e') -> P e') ->
  (forall e a, reachable cfg e -> P e -> P (snd (step cfg a e))) ->
  forall self, reachable cfg self -> P self.
Proof.
  intros Hinit Hframe Hreset Hstep self Hr.
  induction Hr as [ds|op self Hr IH]; [apply Hinit|].
  destruct op as [| | |a]; simpl.
  - eapply Hframe; [apply setup_inv | exact IH].
  - eapply Hframe; [apply teardown_frame | exact IH].
  - pose proof (reset_inv cfg self) as H.
    destruct (reset cfg self) as [[obs|x] self'] eqn:E; simpl.
    + eapply Hreset; [exact IH | exact E].
    + destruct H as [_ H]. eapply Hframe; [|exact IH].
      pose proof (setup_inv cfg self) as [Hf _]. now rewrite H in Hf.
  - now apply Hstep.
Qed.

Lemma run_ops_reachable (cfg : Config) (ops : list Op) (self : Env) :
  reachable cfg self -> reachable cfg (run_ops cfg ops self).
Proof.
  revert self. induction ops as [|op rest IH]; intros self Hr; simpl.
  - exact Hr.
  - apply IH. now apply reachable_op.
Qed.

(** A call to [step] either leaves the state as it is (budget short circuit
    or ordering error) or has passed the checks. *)
Lemma step_unchanged_or_entered (cfg : Config) (a : Action) (self : Env) :
  snd (step cfg a self) = self \/
  exists o,
    budget_reached cfg self = false /\ _is_setup self = true /\
    _episode_ended self = false /\ _last_observation self = Some o.
Proof.
  destruct (budget_reached cfg self) eqn:Hb;
    [left; now rewrite step_budget|].
  destruct (_is_setup self) eqn:Hs;
    [|left; now rewrite step_not_setup].
  destruct (_episode_ended self) eqn:He;
    [left; now rewrite step_episode_ended|].
  destruct (_last_observation self) as [o|] eqn:Hl;
    [|left; now rewrite step_no_observation].
  right. now exists o.
Qed.

(** What a call to [step] does to the reward history and to the success
    rate, at any exit. *)
Lemma step_state_progress (cfg : Config) (a : Action) (self : Env) :
  (rewards (_state (snd (step cfg a self))) = rewards (_state self) \/
   exists vr, rewards (_state (snd (step cfg a self))) =
              rewards (_state self) ++ [base_rewards vr]) /\
  (success_rate (_state (snd (step cfg a self))) = success_rate (_state self)
   \/ exists vr, success_rate (_state (snd (step cfg a self))) =
                 updated_success_rate (_state self) vr).
Proof.
  unfold step, compute_reward, updated_success_rate. run.
  destruct (budget_reached cfg self); [now split; left|].
  destruct (_is_setup self); simpl; [|now split; left].
  destruct (_episode_ended self); [now split; left|].
  destruct (_last_observation self) as [o|]; [|now split; left].
  destruct (extract cfg (trace self) (llm_response a)) as [ex|x]; simpl;
    [|now split; left].
  destruct (verify cfg _ _) as [vr|x]; simpl; [|now split; left].
  destruct (outcome_eqb (status vr) SUCCESS) eqn:Hst; simpl;
    (destruct (attempts (_state self) + 1 =? 0); simpl;
     [split; [right; exists vr; unfold base_rewards; now rewrite Hst
             | now left]|]);
    (destruct (_compute_reward cfg _ a _ vr) as [further|x]; simpl;
     [|split; right; exists vr; unfold base_rewards; now rewrite Hst]);
    match goal with |- context [_is_done cfg ?s] =>
      destruct (_is_done cfg s) end; simpl;
    try (split; right; exists vr; unfold base_rewards; now rewrite Hst);
    match goal with |- context [_get_next_observation cfg ?s] =>
      pose proof (_get_next_observation_frame cfg s)
        as (_ & (_ & P2 & P3 & _) & _);
      destruct (_get_next_observation cfg s) as [o0 e'] end;
    simpl in *; rewrite P2, P3;
    split; right; exists vr; unfold base_rewards; now rewrite Hst.
Qed.

(** X6. In every reachable state, [episode_ended] is true only where the
    step budget is reached. So whenever the episode has ended, a further
    [step] returns the result of the budget short circuit and leaves the
    state as it is: through the operations of the class, the check that
    raises for an ended episode is never the one that decides. *)
Theorem ended_only_at_budget (cfg : Config) (self : Env) :
  reachable cfg self ->
  _episode_ended self = true ->
  budget_reached cfg self = true /\
  forall action, step cfg action self = (Ok (budget_result self), self).
Proof.
  intros Hr He.
  assert (Hb : budget_reached cfg self = true).
  { revert He. revert self Hr.
    apply (reachable_invariant cfg
             (fun e => _episode_ended e = true -> budget_reached cfg e = true)).
    - discriminate.
    - intros e e' (_ & Hcs & Hen & _) IH He'.
      rewrite (budget_reached_current_step cfg e e' Hcs). apply IH. congruence.
    - intros e obs e' _ Hreset He'. pose proof (reset_inv cfg e) as H.
      rewrite Hreset in H. destruct H as (_ & _ & H & _). congruence.
    - intros e a _ IH.
      destruct (step_unchanged_or_entered cfg a e)
        as [->|(o & Hb & Hs & He & Hl)]; [exact IH|].
      destruct (step cfg a e) as [res e'] eqn:Hstep. simpl.
      destruct (step_entered cfg a e o res e' Hb Hs He Hl Hstep)
        as (_ & _ & _ & Hres).
      destruct res as [r|x].
      + destruct Hres as (Hd & Hend & _). congruence.
      + destruct Hres as (Hend & _). congruence. }
  split; [exact Hb|]. intros action. now apply step_budget.
Qed.

Lemma ended_only_at_budget_witness :
  let cfg := demo_cfg (Some 1) in
  let self := exit_state cfg (OpStep (answer "a0" "a0"))
                (exit_state cfg OpReset (init_env two_items)) in
  _episode_ended self = true /\
  step cfg (answer "a1" "a1") self = (Ok (budget_result self), self).
Proof.
  intros cfg self. split; [reflexivity|].
  apply (ended_only_at_budget cfg self).
  - unfold self. apply reachable_op. apply reachable_op. apply reachable_init.
  - reflexivity.
Defined.

(** X7. The step counter stays within its bounds: in every reachable state
    it is non-negative, and under a budget [N >= 1] it never exceeds [N],
    however many times [step] is called; the history is then never longer
    than [N]. *)
Theorem current_step_bounds (cfg : Config) (self : Env) :
  reachable cfg self ->
  0 <= _current_step self /\
  forall N, max_steps cfg = Some N -> 1 <= N ->
            _current_step self <= N /\
            Z.of_nat (List.length (_episode_history self)) <= N.
Proof.
  intros Hr.
  assert (Hhist : history_matches_step self).
  { induction Hr as [ds|op self _ IH]; [reflexivity|].
    now apply exit_state_history_matches. }
  assert (Hinv : 0 <= _current_step self /\
                 forall N, max_steps cfg = Some N -> 1 <= N ->
                           _current_step self <= N).
  { revert self Hr Hhist. intros self Hr _. revert self Hr.
    apply (reachable_invariant cfg
             (fun e => 0 <= _current_step e /\
                       forall N, max_steps cfg = Some N -> 1 <= N ->
                                 _current_step e <= N)).
    - intros ds. simpl. split; [lia|]. intros; lia.
    - intros e e' (_ & Hcs & _) IH. now rewrite Hcs.
    - intros e obs e' _ Hreset. pose proof (reset_inv cfg e) as H.
      rewrite Hreset in H. destruct H as (_ & -> & _).
      split; [lia|]. intros; lia.
    - intros e a _ [IH0 IHN].
      destruct (step_unchanged_or_entered cfg a e)
        as [->|(o & Hb & Hs & He & Hl)]; [now split|].
      destruct (step cfg a e) as [res e'] eqn:Hstep. simpl.
      destruct (step_entered cfg a e o res e' Hb Hs He Hl Hstep)
        as (Hcs & _).
      rewrite Hcs. split; [lia|]. intros N Hm HN.
      rewrite (budget_reached_spec cfg e N Hm) in Hb by lia.
      apply Z.leb_gt in Hb. lia. }
  destruct Hinv as [H0 HN]. split; [exact H0|].
  intros N Hm H1. specialize (HN N Hm H1).
  unfold history_matches_step in Hhist. split; [exact HN | lia].
Qed.

Lemma current_step_bounds_witness :
  let cfg := demo_cfg (Some 2) in
  let self := run_ops cfg [OpReset; OpStep (answer "a0" "a0");
                           OpStep (answer "a1" "a1");
                           OpStep (answer "a0" "a0");
                           OpStep (answer "a1" "a1")] (init_env two_items) in
  _current_step self <= 2 /\ _current_step self = 2.
Proof.
  intros cfg self. split; [|reflexivity].
  refine (proj1 (proj2 (current_step_bounds cfg self _) 2 eq_refl _)).
  - unfold self. apply run_ops_reachable, reachable_init.
  - lia.
Defined.

Lemma base_rewards_is_base (vr : VerificationResult) :
  is_base_breakdown (base_rewards vr).
Proof.
  unfold is_base_breakdown, base_rewards.
  destruct (outcome_eqb (status vr) SUCCESS); auto.
Qed.

(** X8. The reward history of the state map holds base breakdowns only: in
    every reachable state each entry of [state["rewards"]] is the
    dictionary with the single key [correctness] and the value 0 or 1, the
    components and overrides of the reward hook never enter it, and it has
    at most one entry per step counted. *)
Theorem reward_history_is_base_only (cfg : Config) (self : Env) :
  reachable cfg self ->
  Forall is_base_breakdown (rewards (_state self)) /\
  Z.of_nat (List.length (rewards (_state self))) <= _current_step self.
Proof.
  revert self.
  apply (reachable_invariant cfg
           (fun e => Forall is_base_breakdown (rewards (_state e)) /\
                     Z.of_nat (List.length (rewards (_state e)))
                     <= _current_step e)).
  - intros ds. simpl. split; [constructor | lia].
  - intros e e' (_ & Hcs & _ & Hst & _) IH. now rewrite Hst, Hcs.
  - intros e obs e' _ Hreset. pose proof (reset_inv cfg e) as H.
    rewrite Hreset in H. destruct H as (_ & Hcs & _ & _ & _ & (_ & _ & Hr & _)).
    rewrite Hr, Hcs. simpl. split; [constructor | lia].
  - intros e a _ [IHf IHl].
    destruct (step_unchanged_or_entered cfg a e)
      as [->|(o & Hb & Hs & He & Hl)]; [now split|].
    destruct (step_state_progress cfg a e) as [Hrw _].
    destruct (step cfg a e) as [res e'] eqn:Hstep. simpl in *.
    destruct (step_entered cfg a e o res e' Hb Hs He Hl Hstep) as (Hcs & _).
    rewrite Hcs. destruct Hrw as [->|[vr ->]].
    + split; [exact IHf | lia].
    + split.
      * apply Forall_app. split; [exact IHf|].
        constructor; [apply base_rewards_is_base | constructor].
      * rewrite length_app. simpl. lia.
Qed.

Lemma reward_history_is_base_only_witness :
  let self := run_ops shaping_cfg [OpReset; OpStep (answer "a0" "a0")]
                (init_env two_items) in
  Forall is_base_breakdown (rewards (_state self)) /\
  rewards (_state self) = [[("correctness", 1%Q)]].
Proof.
  intros self. split; [|reflexivity].
  apply (reward_history_is_base_only shaping_cfg self).
  unfold self. apply run_ops_reachable, reachable_init.
Defined.

(** X9. In every reachable state the success rate lies between 0 and 1. *)
Theorem success_rate_bounds (cfg : Config) (self : Env) :
  reachable cfg self ->
  (0 <= success_rate (_state self) <= 1)%Q.
Proof.
  revert self.
  apply (reachable_invariant cfg
           (fun e => (0 <= success_rate (_state e) <= 1)%Q)).
  - intros ds. simpl. split; discriminate.
  - intros e e' (_ & _ & _ & Hst & _) IH. now rewrite Hst.
  - intros e obs e' _ Hreset. pose proof (reset_inv cfg e) as H.
    rewrite Hreset in H. destruct H as (_ & _ & _ & _ & _ & (_ & Hsr & _)).
    rewrite Hsr. simpl. split; discriminate.
  - intros e a Hr IH.
    destruct (step_state_progress cfg a e) as [_ [->|[vr ->]]]; [exact IH|].
    pose proof (reachable_attempts cfg e Hr) as Ha.
    assert (Hc : (updated_success_rate (_state e) vr == correctness vr)%Q).
    { unfold updated_success_rate, correctness. rewrite Ha. simpl.
      destruct (status vr); simpl; field. }
    rewrite Hc. unfold correctness. destruct (status vr); split; discriminate.
Qed.

Lemma success_rate_bounds_witness :
  let self := run_ops (demo_cfg None)
                [OpReset; OpStep (answer "a0" "a0"); OpStep (answer "zz" "a1")]
                (init_env two_items) in
  (0 <= success_rate (_state self) <= 1)%Q.
Proof.
  intros self. apply (success_rate_bounds (demo_cfg None) self).
  unfold self. apply run_ops_reachable, reachable_init.
Defined.

(** ** step outside a running episode *)

Lemma without_reset_no_observation (cfg : Config) (self : Env) :
  reachable_without_reset cfg self ->
  _last_observation self = None /\ _current_step self = 0.
Proof.
  induction 1 as [ds|self _ IH|self _ IH|a self _ IH]; simpl.
  - now split.
  - destruct (setup_inv cfg self) as [(_ & Hcs & _ & _ & Hl & _) _].
    destruct IH. split; congruence.
  - destruct (teardown_frame cfg self) as (_ & Hcs & _ & _ & Hl & _).
    destruct IH. split; congruence.
  - destruct (step_unchanged_or_entered cfg a self)
      as [->|(o & _ & _ & _ & Hl)]; [exact IH|].
    destruct IH. congruence.
Qed.

(** X10. Before the first reset no step is taken: in every state reached
    from construction by setup, teardown and step alone, under no budget or
    a non-negative one, [step] raises an ordering error and leaves the
    state as it is, with the message of the set-up check where the
    environment is not set up and of the observation check where it is. *)
Theorem step_before_reset_raises (cfg : Config) (self : Env)
    (action : Action) :
  (forall n, max_steps cfg = Some n -> 0 <= n) ->
  reachable_without_reset cfg self ->
  step cfg action self =
  (Raise (RuntimeError
            (if _is_setup self
             then "No current observation. Call reset() first."
             else "Environment not set up. Call setup() first.")),
   self).
Proof.
  intros Hm Hr.
  destruct (without_reset_no_observation cfg self Hr) as [Hl Hcs].
  assert (Hb : budget_reached cfg self = false).
  { unfold budget_reached. destruct (max_steps cfg) as [n|] eqn:E;
      [|reflexivity].
    destruct (Z.eqb_spec n 0); [reflexivity|].
    rewrite Hcs. apply Z.leb_gt. specialize (Hm n eq_refl). lia. }
  destruct (_is_setup self) eqn:Hs.
  - apply step_no_observation; try assumption.
    destruct (_episode_ended self) eqn:He; [|reflexivity].
    exfalso.
    assert (Hinv : _episode_ended self = false).
    { clear -Hr. induction Hr as [ds|self _ IH|self _ IH|a self Hr IH]; simpl.
      - reflexivity.
      - destruct (setup_inv cfg self) as [(_ & _ & H & _) _]. congruence.
      - destruct (teardown_frame cfg self) as (_ & _ & H & _). congruence.
      - destruct (step_unchanged_or_entered cfg a self)
          as [->|(o & _ & _ & _ & Hl)]; [exact IH|].
        destruct (without_reset_no_observation cfg self Hr). congruence. }
    congruence.
  - now apply step_not_setup.
Qed.

Lemma step_before_reset_raises_witness :
  let self := exit_state hooks_cfg OpSetup (init_env two_items) in
  step hooks_cfg (answer "a0" "a0") self =
  (Raise (RuntimeError "No current observation. Call reset() first."), self).
Proof.
  intros self.
  apply (step_before_reset_raises hooks_cfg self (answer "a0" "a0")).
  - intros n [= <-]. lia.
  - unfold self. apply without_reset_setup, without_reset_init.
Defined.

(** ** Results with done set, and terminal observations *)

Lemma step_ok_cases (cfg : Config) (a : Action) (self self' : Env)
    (r : StepResult) :
  step cfg a self = (Ok r, self') ->
  (budget_reached cfg self = true /\ r = budget_result self /\ self' = self)
  \/ info_reason (info r) = None.
Proof.
  intros Hstep. destruct (budget_reached cfg self) eqn:Hb.
  - left. rewrite (step_budget cfg a self Hb) in Hstep.
    injection Hstep as <- <-. now repeat split.
  - right.
    destruct (_is_setup self) eqn:Hs;
      [|rewrite step_not_setup in Hstep by assumption; discriminate].
    destruct (_episode_ended self) eqn:He;
      [rewrite step_episode_ended in Hstep by assumption; discriminate|].
    destruct (_last_observation self) as [o|] eqn:Hl;
      [|rewrite step_no_observation in Hstep by assumption; discriminate].
    now destruct (step_entered cfg a self o _ _ Hb Hs He Hl Hstep)
      as (_ & _ & _ & _ & _ & _ & Hi).
Qed.

(** X11. Every result of [step] with [done = true], from the budget short
    circuit or from a completed step, carries the terminal observation:
    the question [Episode completed], an empty context, [terminal = true],
    and as [final_step] the step counter at the exit of the call. *)
Theorem done_result_is_terminal (cfg : Config) (action : Action)
    (self self' : Env) (r : StepResult) :
  step cfg action self = (Ok r, self') ->
  done r = true ->
  observation r =
    {| question := "Episode completed";
       context := [];
       metadata := Some [("terminal", PyBool true);
                         ("final_step", PyInt (_current_step self'))] |} /\
  is_terminal (observation r) = true.
Proof.
  intros Hstep Hdone.
  assert (Hobs : observation r = _get_terminal_observation self').
  { destruct (step_ok_cases cfg action self self' r Hstep)
      as [(_ & -> & ->)|Hinfo]; [reflexivity|].
    destruct (step_completed_inv cfg action self self' r Hstep Hinfo)
      as (o & ex & vr & further & generated & _ & _ & _ & (_ & Hg) & _).
    now destruct (Hg Hdone). }
  rewrite Hobs. split; reflexivity.
Qed.

Lemma done_result_is_terminal_witness :
  let cfg := demo_cfg (Some 1) in
  let self := snd (reset cfg (init_env two_items)) in
  exists r self',
    step cfg (answer "a0" "a0") self = (Ok r, self') /\
    is_terminal (observation r) = true.
Proof.
  intros cfg self.
  destruct (step cfg (answer "a0" "a0") self) as [[r|x] self'] eqn:E;
    [|vm_compute in E; discriminate].
  exists r, self'. split; [reflexivity|].
  apply (done_result_is_terminal cfg (answer "a0" "a0") self self' r E).
  vm_compute in E. injection E as <- _. reflexivity.
Defined.

(** X12. A terminal observation from the sampler does not end the episode.
    A completed step below the budget over an empty task source that is not
    generative returns the terminal observation with [done = false] and
    [episode_ended] false, and keeps it as the current observation: the
    next [step] passes the ordering checks and records the terminal
    observation in the history with its action. *)
Theorem exhausted_source_keeps_episode_open (cfg : Config) (action : Action)
    (self self' : Env) (r : StepResult) :
  step cfg action self = (Ok r, self') ->
  done r = false ->
  dataset self = [] -> is_generative cfg = false ->
  is_terminal (observation r) = true /\
  observation r = _get_terminal_observation self' /\
  _episode_ended self' = false /\
  _last_observation self' = Some (observation r) /\
  forall action',
    _episode_history (snd (step cfg action' self')) =
    _episode_history self' ++ [(observation r, action')].
Proof.
  intros Hstep Hdone Hds Hg.
  destruct (step_ok_cases cfg action self self' r Hstep)
    as [(_ & -> & _)|Hinfo]; [discriminate|].
  destruct (step_completed_inv cfg action self self' r Hstep Hinfo)
    as (o & _ & _ & _ & _ & (Hb & Hs & He & Hl) & _).
  destruct (step_entered cfg action self o _ _ Hb Hs He Hl Hstep)
    as (Hcs & _ & Hs' & Hd & Hend & Hlast & _).
  destruct (step_next_observation cfg action self self' r Hstep Hdone)
    as (s1 & Hds1 & Hcs1 & Hobs & _).
  rewrite (_get_next_observation_empty cfg s1) in Hobs by congruence.
  simpl in Hobs.
  assert (Hterm : observation r = _get_terminal_observation self').
  { rewrite Hobs. unfold _get_terminal_observation. congruence. }
  split; [now rewrite Hterm|]. split; [exact Hterm|].
  split; [congruence|]. split; [exact Hlast|].
  intros action'.
  destruct (step cfg action' self') as [res e''] eqn:Hstep'.
  assert (Hb' : budget_reached cfg self' = false) by congruence.
  assert (He' : _episode_ended self' = false) by congruence.
  now destruct (step_entered cfg action' self' (observation r) res e''
                  Hb' Hs' He' Hlast Hstep') as (_ & Hh & _).
Qed.

Lemma exhausted_source_keeps_episode_open_witness :
  let cfg := demo_cfg None in
  let self := snd (reset cfg (init_env [])) in
  exists r self',
    step cfg (answer "a0" "a0") self = (Ok r, self') /\
    done r = false /\ is_terminal (observation r) = true /\
    _episode_ended self' = false.
Proof.
  intros cfg self.
  destruct (step cfg (answer "a0" "a0") self) as [[r|x] self'] eqn:E;
    [|vm_compute in E; discriminate].
  assert (Hd : done r = false).
  { vm_compute in E. injection E as <- _. reflexivity. }
  destruct (exhausted_source_keeps_episode_open cfg (answer "a0" "a0")
              self self' r E Hd eq_refl eq_refl) as (H1 & _ & H3 & _).
  exists r, self'. now repeat split.
Defined.

(** ** Failures of the collaborators during a step *)

(** X13. A collaborator failure is not rolled back. When a call to [step]
    that passed the ordering checks raises, the call stays counted (the
    counter is incremented, the pair is in the history) while the episode
    stays open with the same current observation. A retry is therefore a
    new step: where the budget is now reached it returns the budget short
    circuit, and otherwise it records the same observation a second time,
    with the action of the retry. *)
Theorem failed_step_stays_counted (cfg : Config) (action : Action)
    (self self' : Env) (o : Observation) (x : PyExc) :
  budget_reached cfg self = false -> _is_setup self = true ->
  _episode_ended self = false -> _last_observation self = Some o ->
  step cfg action self = (Raise x, self') ->
  _current_step self' = _current_step self + 1 /\
  _episode_history self' = _episode_history self ++ [(o, action)] /\
  _episode_ended self' = false /\
  _last_observation self' = Some o /\
  forall retry,
    (budget_reached cfg self' = true ->
     step cfg retry self' = (Ok (budget_result self'), self')) /\
    (budget_reached cfg self' = false ->
     _episode_history (snd (step cfg retry self')) =
     _episode_history self ++ [(o, action); (o, retry)]).
Proof.
  intros Hb Hs He Hl Hstep.
  destruct (step_entered cfg action self o _ _ Hb Hs He Hl Hstep)
    as (Hcs & Hh & Hs' & He' & Hl').
  repeat split; try assumption.
  - now apply step_budget.
  - intros Hb'.
    destruct (step cfg retry self') as [res e''] eqn:Hstep'.
    destruct (step_entered cfg retry self' o res e'' Hb' Hs' He' Hl' Hstep')
      as (_ & Hh' & _).
    simpl. rewrite Hh', Hh, <- app_assoc. reflexivity.
Qed.

Lemma failed_step_stays_counted_witness :
  let cfg := verifier_fails_cfg in
  let self := snd (reset cfg (init_env two_items)) in
  let self' := snd (step cfg (answer "a0" "a0") self) in
  _current_step self' = 1 /\
  List.length (_episode_history (snd (step cfg (answer "a0" "a0") self')))
  = 2%nat.
Proof.
  intros cfg self self'.
  destruct (_last_observation self) as [o|] eqn:Hl;
    [|vm_compute in Hl; discriminate].
  destruct (step cfg (answer "a0" "a0") self) as [[r|x] e] eqn:E;
    [vm_compute in E; discriminate|].
  destruct (failed_step_stays_counted cfg (answer "a0" "a0") self e o x
              eq_refl eq_refl eq_refl Hl E) as (H1 & _ & _ & _ & Hretry).
  subst self'. simpl snd. split; [exact H1|].
  destruct (Hretry (answer "a0" "a0")) as [_ H2].
  rewrite H2.
  - rewrite length_app. reflexivity.
  - unfold budget_reached. reflexivity.
Defined.

(** X14. The reward aggregator updates the state map before it calls the
    reward hook. When the hook raises, in a state whose attempt counter is
    not -1, [step] raises the hook's exception after the base breakdown of
    the verification result has been appended to the reward history and the
    success rate has been overwritten; the episode stays open. *)
Theorem hook_failure_after_state_update (cfg : Config) (action : Action)
    (self : Env) (o : Observation) (ex : option string)
    (vr : VerificationResult) (x : PyExc) :
  budget_reached cfg self = false -> _is_setup self = true ->
  _episode_ended self = false -> _last_observation self = Some o ->
  attempts (_state self) + 1 <> 0 ->
  extract cfg (trace self) (llm_response action) = Ok ex ->
  verify cfg (trace self ++ [EvExtract (llm_response action)])
    (verifier_input ex action) = Ok vr ->
  _compute_reward cfg
    ((trace self ++ [EvExtract (llm_response action)])
     ++ [EvVerify (verifier_input ex action)])
    action (extraction_text ex) vr = Raise x ->
  fst (step cfg action self) = Raise x /\
  rewards (_state (snd (step cfg action self))) =
    rewards (_state self) ++ [base_rewards vr] /\
  success_rate (_state (snd (step cfg action self))) =
    updated_success_rate (_state self) vr /\
  _episode_ended (snd (step cfg action self)) = false /\
  _last_observation (snd (step cfg action self)) = Some o.
Proof.
  intros Hb Hs He Hl Ha Hex Hvr Hfu.
  unfold step, compute_reward, updated_success_rate, verifier_input,
    extraction_text in *. run.
  rewrite Hb, Hs, He, Hl. simpl. rewrite Hex. simpl. rewrite Hvr. simpl.
  destruct (Z.eqb_spec (attempts (_state self) + 1) 0) as [E|_];
    [contradiction|].
  simpl. rewrite Hfu. simpl. unfold base_rewards.
  destruct (outcome_eqb (status vr) SUCCESS); now repeat split.
Qed.

Lemma hook_failure_after_state_update_witness :
  let cfg := hook_fails_cfg in
  let self := snd (reset cfg (init_env two_items)) in
  fst (step cfg (answer "a0" "a0") self) =
    Raise (OtherError "TypeError" "unsupported operand") /\
  rewards (_state (snd (step cfg (answer "a0" "a0") self))) =
    [[("correctness", 1%Q)]].
Proof.
  intros cfg self.
  destruct (_last_observation self) as [o|] eqn:Hl;
    [|vm_compute in Hl; discriminate].
  destruct (hook_failure_after_state_update cfg (answer "a0" "a0") self o
              (Some "a0")
              (exact_match {| vi_llm_response := "a0";
                              vi_ground_truth := Some "a0" |})
              (OtherError "TypeError" "unsupported operand")
              eq_refl eq_refl eq_refl Hl) as (H1 & H2 & _);
    try reflexivity.
  - discriminate.
  - split; [exact H1 | exact H2].
Defined.

(** ** The calls a step makes *)

Lemma _get_next_observation_trace (cfg : Config) (self : Env) :
  trace (snd (_get_next_observation cfg self)) =
  trace self ++
  (if (Z.of_nat (List.length (dataset self)) =? 0) && is_generative cfg
   then [EvGenerate 1] else []).
Proof.
  unfold _get_next_observation.
  destruct (Z.of_nat (List.length (dataset self)) =? 0); simpl.
  - destruct (is_generative cfg); [|now rewrite app_nil_r].
    unfold call. destruct (generate_new cfg _ _ _) as [ds|x]; [|reflexivity].
    match goal with |- context [sample_observation ?e] =>
      destruct (sample_observation_frame e) as (_ & -> & _) end.
    reflexivity.
  - destruct (sample_observation_frame self) as (_ & -> & _).
    now rewrite app_nil_r.
Qed.

(** X15. The collaborator calls of a step. A call to [step] that returns a
    completed step has called the extractor on the response of the action,
    the verifier with the text the extractor returned (the empty string for
    [None]) and the final answer of the action, and the reward hook with
    that text and the result the verifier returned, once each and in this
    order; after them it asks the task source to generate, once and for one
    item, exactly when the step is not done and the source is empty and
    generative. The budget short circuit calls no collaborator. A call
    that raises has made a prefix of the first three calls, with the same
    arguments. No call to [step] calls a setup or cleanup hook. *)
Theorem step_calls_in_order (cfg : Config) (action : Action)
    (self self' : Env) (res : Res StepResult) :
  step cfg action self = (res, self') ->
  exists n ex vr,
    trace self' =
      trace self ++
      firstn n [EvExtract (llm_response action);
                EvVerify (verifier_input ex action);
                EvComputeReward action (extraction_text ex) vr;
                EvGenerate 1] /\
    ((2 <= n)%nat ->
     extract cfg (trace self) (llm_response action) = Ok ex) /\
    ((3 <= n)%nat ->
     verify cfg (trace self ++ [EvExtract (llm_response action)])
       (verifier_input ex action) = Ok vr) /\
    match res with
    | Ok r =>
        n = match info_reason (info r) with
            | Some _ => 0%nat
            | None =>
                if negb (done r)
                   && (Z.of_nat (List.length (dataset self)) =? 0)
                   && is_generative cfg
                then 4%nat else 3%nat
            end
    | Raise _ => (n <= 3)%nat
    end.
Proof.
  pose (vr0 := {| status := FAILURE; result := "" |}).
  unfold step, compute_reward, verifier_input, extraction_text. run.
  destruct (budget_reached cfg self);
    [intros [= <- <-]; exists 0%nat, None, vr0; simpl;
     rewrite app_nil_r; repeat split; lia|].
  destruct (_is_setup self); simpl;
    [|intros [= <- <-]; exists 0%nat, None, vr0; simpl;
      rewrite app_nil_r; repeat split; lia].
  destruct (_episode_ended self);
    [intros [= <- <-]; exists 0%nat, None, vr0; simpl;
     rewrite app_nil_r; repeat split; lia|].
  destruct (_last_observation self) as [o|];
    [|intros [= <- <-]; exists 0%nat, None, vr0; simpl;
      rewrite app_nil_r; repeat split; lia].
  destruct (extract cfg (trace self) (llm_response action)) as [ex|x]
    eqn:Hex; simpl;
    [|intros [= <- <-]; exists 1%nat, None, vr0; simpl;
      repeat split; lia].
  destruct (verify cfg _ _) as [vr|x] eqn:Hvr; simpl;
    [|intros [= <- <-]; exists 2%nat, ex, vr0; simpl;
      rewrite <- app_assoc; repeat split; lia].
  destruct (attempts (_state self) + 1 =? 0); simpl;
    [intros [= <- <-]; exists 2%nat, ex, vr; simpl;
     rewrite <- app_assoc; repeat split; lia|].
  destruct (_compute_reward cfg _ action _ vr) as [further|x]; simpl;
    [|intros [= <- <-]; exists 3%nat, ex, vr; simpl;
      rewrite <- !app_assoc; repeat split; auto].
  match goal with |- context [_is_done cfg ?s] =>
    destruct (_is_done cfg s); simpl;
    [intros [= <- <-]; exists 3%nat, ex, vr; simpl;
     rewrite <- !app_assoc; repeat split; auto|];
    pose proof (_get_next_observation_trace cfg s) as Ht;
    destruct (_get_next_observation cfg s) as [o0 e'] end.
  simpl in Ht. intros [= <- <-]. simpl. rewrite Ht.
  destruct ((Z.of_nat (List.length (dataset self)) =? 0) && is_generative cfg).
  - exists 4%nat, ex, vr. simpl. rewrite <- !app_assoc. repeat split; auto.
  - exists 3%nat, ex, vr. simpl. rewrite app_nil_r, <- !app_assoc.
    repeat split; auto.
Qed.

(** An empty generative source whose generation fails: reset returns the
    terminal observation, and the step after it makes the four calls. *)
Lemma step_calls_in_order_witness :
  let cfg := generation_fails_cfg in
  let self1 := snd (reset cfg (ready_env [])) in
  let action := answer "a0" "a0" in
  trace (snd (step cfg action self1)) =
  trace self1 ++
  [EvExtract "a0";
   EvVerify {| vi_llm_response := "a0"; vi_ground_truth := Some "a0" |};
   EvComputeReward action "a0"
     (exact_match {| vi_llm_response := "a0"; vi_ground_truth := Some "a0" |});
   EvGenerate 1].
Proof.
  intros cfg self1 action.
  destruct (step cfg action self1) as [res e] eqn:E.
  destruct (step_calls_in_order cfg action self1 e res E)
    as (n & ex & vr & Ht & Hex & Hvr & Hn).
  assert (Hres : exists r, res = Ok r /\ info_reason (info r) = None /\
                           done r = false).
  { vm_compute in E. injection E as <- _. eexists. now repeat split. }
  destruct Hres as (r & -> & Hi & Hd).
  rewrite Hi, Hd in Hn. simpl in Hn. subst n.
  assert (H2 : (2 <= 4)%nat) by lia. assert (H3 : (3 <= 4)%nat) by lia.
  specialize (Hex H2). specialize (Hvr H3).
  vm_compute in Hex. injection Hex as <-.
  vm_compute in Hvr. injection Hvr as <-.
  simpl snd. exact Ht.
Defined.

(** ** The task source under the operations *)

Lemma setup_no_generate (cfg : Config) (self : Env) :
  filter is_generate (trace (snd (setup cfg self))) =
  filter is_generate (trace self).
Proof.
  unfold setup, bind, get_self, modify, ret, call_optional, call.
  destruct (_is_setup self); [reflexivity|].
  destruct (verifier_setup cfg) as [h1|], (dataset_setup cfg) as [h2|],
    (extractor_setup cfg) as [h3|], (teacher_reset cfg) as [h4|];
    simpl; destruct_hook_calls;
    rewrite ?filter_app; simpl; rewrite ?app_nil_r; reflexivity.
Qed.

Lemma teardown_no_generate (cfg : Config) (self : Env) :
  filter is_generate (trace (snd (teardown cfg self))) =
  filter is_generate (trace self).
Proof.
  unfold teardown, bind, get_self, modify, ret, call_optional, call.
  destruct (_is_setup self); [|reflexivity]. simpl.
  destruct (verifier_cleanup cfg) as [h1|], (dataset_cleanup cfg) as [h2|],
    (extractor_cleanup cfg) as [h3|];
    simpl; destruct_hook_calls;
    rewrite ?filter_app; simpl; rewrite ?app_nil_r; reflexivity.
Qed.

Lemma _get_next_observation_source_frame (cfg : Config) (self : Env) :
  dataset self <> [] \/ is_generative cfg = false ->
  dataset (snd (_get_next_observation cfg self)) = dataset self /\
  trace (snd (_get_next_observation cfg self)) = trace self.
Proof.
  intros H. rewrite _get_next_observation_trace.
  assert (Hg : (Z.of_nat (List.length (dataset self)) =? 0)
               && is_generative cfg = false).
  { destruct H as [H | ->]; [|apply andb_false_r].
    destruct (dataset self); [contradiction | reflexivity]. }
  rewrite Hg, app_nil_r. split; [|reflexivity].
  unfold _get_next_observation.
  destruct (Z.of_nat (List.length (dataset self)) =? 0); simpl in Hg.
  - now rewrite Hg.
  - apply sample_observation_frame.
Qed.

Lemma step_source_frame (cfg : Config) (a : Action) (self : Env) :
  dataset self <> [] \/ is_generative cfg = false ->
  dataset (snd (step cfg a self)) = dataset self /\
  filter is_generate (trace (snd (step cfg a self))) =
  filter is_generate (trace self).
Proof.
  intros H. unfold step, compute_reward. run.
  destruct (budget_reached cfg self); [now split|].
  destruct (_is_setup self); simpl; [|now split].
  destruct (_episode_ended self); [now split|].
  destruct (_last_observation self) as [o|]; [|now split].
  destruct (extract cfg (trace self) (llm_response a)) as [ex|x]; simpl;
    [|split; [reflexivity | rewrite filter_app; simpl; apply app_nil_r]].
  destruct (verify cfg _ _) as [vr|x]; simpl;
    [|split; [reflexivity | rewrite !filter_app; simpl;
                            now rewrite !app_nil_r]].
  destruct (attempts (_state self) + 1 =? 0); simpl;
    [split; [reflexivity | rewrite !filter_app; simpl;
                           now rewrite !app_nil_r]|].
  destruct (_compute_reward cfg _ a _ vr) as [further|x]; simpl;
    [|split; [reflexivity | rewrite !filter_app; simpl;
                            now rewrite !app_nil_r]].
  match goal with |- context [_is_done cfg ?s] =>
    destruct (_is_done cfg s); simpl;
    [split; [reflexivity | rewrite !filter_app; simpl;
                           now rewrite !app_nil_r]|];
    destruct (_get_next_observation_source_frame cfg s H) as [Hd Ht];
    destruct (_get_next_observation cfg s) as [o0 e'] end.
  simpl in *. rewrite Hd, Ht. split; [reflexivity|].
  rewrite !filter_app. simpl. now rewrite !app_nil_r.
Qed.

Lemma exit_state_source_frame (cfg : Config) (op : Op) (self : Env) :
  dataset self <> [] \/ is_generative cfg = false ->
  dataset (exit_state cfg op self) = dataset self /\
  filter is_generate (trace (exit_state cfg op self)) =
  filter is_generate (trace self).
Proof.
  intros H. destruct op as [| | |a]; simpl.
  - split; [apply setup_inv | apply setup_no_generate].
  - split; [apply teardown_frame | apply teardown_no_generate].
  - rewrite reset_eq.
    assert (Hcase : forall e,
      dataset e = dataset self ->
      filter is_generate (trace e) = filter is_generate (trace self) ->
      let (o, e') := _get_next_observation cfg (episode_start e) in
      dataset (snd (Ok o, set_last_observation (Some o) e')) = dataset self /\
      filter is_generate
        (trace (snd (Ok o, set_last_observation (Some o) e'))) =
      filter is_generate (trace self)).
    { intros e Hd Ht.
      assert (H' : dataset (episode_start e) <> [] \/
                   is_generative cfg = false).
      { destruct H as [H|H]; [left; simpl; congruence | now right]. }
      destruct (_get_next_observation_source_frame cfg (episode_start e) H')
        as [Hd' Ht'].
      destruct (_get_next_observation cfg (episode_start e)) as [o e'].
      simpl in *. split; congruence. }
    destruct (_is_setup self).
    + specialize (Hcase self eq_refl eq_refl).
      now destruct (_get_next_observation cfg (episode_start self)).
    + pose proof (setup_inv cfg self) as [(Hd & _) _].
      pose proof (setup_no_generate cfg self) as Ht.
      destruct (setup cfg self) as [[[]|x] e]; simpl in Hd, Ht.
      * specialize (Hcase e Hd Ht).
        now destruct (_get_next_observation cfg (episode_start e)).
      * now split.
  - now apply step_source_frame.
Qed.

(** X16. The controller never changes a task source that is non-empty or
    not generative, and never asks it to generate: after any sequence of
    setup, teardown, reset and step calls, whatever their outcomes, the
    items of the source are the ones it started with and the trace holds no
    generation request that was not there before. *)
Theorem source_is_never_modified (cfg : Config) (ops : list Op) (self : Env) :
  dataset self <> [] \/ is_generative cfg = false ->
  dataset (run_ops cfg ops self) = dataset self /\
  filter is_generate (trace (run_ops cfg ops self)) =
  filter is_generate (trace self).
Proof.
  revert self. induction ops as [|op rest IH]; intros self H; simpl.
  - now split.
  - destruct (exit_state_source_frame cfg op self H) as [Hd Ht].
    assert (H' : dataset (exit_state cfg op self) <> [] \/
                 is_generative cfg = false).
    { destruct H as [H|H]; [left; congruence | now right]. }
    destruct (IH _ H') as [Hd' Ht']. split; congruence.
Qed.

Lemma source_is_never_modified_witness :
  let self := run_ops generative_cfg
                [OpReset; OpStep (answer "a0" "a0"); OpStep (answer "zz" "a1");
                 OpTeardown; OpReset; OpStep (answer "a0" "a0")]
                (init_env two_items) in
  dataset self = two_items /\ filter is_generate (trace self) = [].
Proof.
  intros self.
  apply (source_is_never_modified generative_cfg _ (init_env two_items)).
  left. discriminate.
Defined.

(** X17. On an empty generative source the sampler asks for one new item,
    once. When the generation raises, the exception is swallowed: the
    sampler returns the terminal observation and the source stays empty.
    When it returns, the source holds what the generation gave: still
    empty, the observation is the terminal one; holding valid items, the
    observation is built from the item at [current_step mod] the new
    size. *)
Theorem sampler_generates_once (cfg : Config) (self : Env) :
  dataset self = [] -> is_generative cfg = true ->
  trace (snd (_get_next_observation cfg self)) = trace self ++ [EvGenerate 1]
  /\
  match generate_new cfg (trace self) [] 1 with
  | Raise _ =>
      fst (_get_next_observation cfg self) = _get_terminal_observation self /\
      dataset (snd (_get_next_observation cfg self)) = []
  | Ok ds =>
      dataset (snd (_get_next_observation cfg self)) = ds /\
      (ds = [] ->
       fst (_get_next_observation cfg self) = _get_terminal_observation self)
      /\
      (ds <> [] -> forallb valid_item ds = true ->
       served_from ds (_current_step self mod Z.of_nat (List.length ds))
         (fst (_get_next_observation cfg self)))
  end.
Proof.
  intros Hd Hg. split.
  - rewrite _get_next_observation_trace, Hd, Hg. reflexivity.
  - unfold _get_next_observation, call. rewrite Hd, Hg. simpl.
    destruct (generate_new cfg (trace self) [] 1) as [ds|x]; [|now split].
    match goal with |- context [sample_observation ?e] =>
      set (e1 := e) end.
    destruct (sample_observation_frame e1) as (_ & _ & Hds & _).
    split; [exact Hds|]. split.
    + intros ->. reflexivity.
    + intros Hne Hall.
      apply (sample_observation_valid e1); assumption.
Qed.

Lemma sampler_generates_once_witness :
  let self := ready_env [] in
  trace (snd (_get_next_observation generative_cfg self)) = [EvGenerate 1] /\
  question (fst (_get_next_observation generative_cfg self)) = "new".
Proof.
  intros self.
  destruct (sampler_generates_once generative_cfg self eq_refl eq_refl)
    as [Ht _].
  split; [exact Ht | reflexivity].
Defined.

(** ** The observations the sampler builds *)

Lemma sample_observation_built (self : Env) (dp : Datapoint) (q fa : string)
    (md : dict PyVal) :
  dataset self <> [] ->
  nth_error (dataset self)
    (Z.to_nat (_current_step self mod Z.of_nat (List.length (dataset self))))
  = Some (Some dp) ->
  truthy_str (dp_question dp) = Some q ->
  truthy_str (dp_final_answer dp) = Some fa ->
  dp_metadata dp = Some md ->
  fst (sample_observation self) =
  {| question := q;
     context := [("final_answer", PyStr fa);
                 ("difficulty", py_opt_str (dp_difficulty dp));
                 ("rationale", py_opt_str (dp_rationale dp))];
     metadata :=
       Some (union
               [("step", PyInt (_current_step self));
                ("datapoint_id",
                 PyStr (str_of_int
                          (_current_step self
                           mod Z.of_nat (List.length (dataset self)))));
                ("verified",
                 match get "verified" md with
                 | Some v => v
                 | None => PyBool false
                 end)]
               md) |}.
Proof.
  intros Hne Hnth Hq Hfa Hmd. unfold sample_observation.
  destruct (Z.eqb_spec (Z.of_nat (List.length (dataset self))) 0) as [E|_].
  - destruct (dataset self); [contradiction | simpl List.length in E; lia].
  - now rewrite Hnth, Hq, Hfa, Hmd.
Qed.

Lemma sample_observation_current_datapoint (self : Env)
    (item : option Datapoint) :
  dataset self <> [] ->
  nth_error (dataset self)
    (Z.to_nat (_current_step self mod Z.of_nat (List.length (dataset self))))
  = Some item ->
  current_datapoint (_state (snd (sample_observation self))) =
  match item with
  | Some dp => Some dp
  | None => current_datapoint (_state self)
  end.
Proof.
  intros Hne Hnth. unfold sample_observation.
  destruct (Z.eqb_spec (Z.of_nat (List.length (dataset self))) 0) as [E|_].
  - destruct (dataset self); [contradiction | simpl List.length in E; lia].
  - rewrite Hnth. destruct item as [dp|]; [|reflexivity].
    now destruct (truthy_str (dp_question dp)),
      (truthy_str (dp_final_answer dp)), (dp_metadata dp).
Qed.

(** X18. The observation built from a valid item. Its question is the
    item's, its context holds the final answer, the difficulty and the
    rationale ([None] where the item has none), and its metadata is the
    item's metadata over the defaults: a key of the item's metadata has the
    item's value, also for [step] and [datapoint_id]; any other key has its
    default, which is the step counter for [step], the index as a string
    for [datapoint_id] and [False] for [verified]. *)
Theorem observation_of_valid_item (cfg : Config) (self : Env)
    (dp : Datapoint) (q fa : string) (md : dict PyVal) :
  dataset self <> [] ->
  nth_error (dataset self)
    (Z.to_nat (_current_step self mod Z.of_nat (List.length (dataset self))))
  = Some (Some dp) ->
  truthy_str (dp_question dp) = Some q ->
  truthy_str (dp_final_answer dp) = Some fa ->
  dp_metadata dp = Some md ->
  NoDup (keys md) ->
  question (fst (_get_next_observation cfg self)) = q /\
  context (fst (_get_next_observation cfg self)) =
    [("final_answer", PyStr fa);
     ("difficulty", py_opt_str (dp_difficulty dp));
     ("rationale", py_opt_str (dp_rationale dp))] /\
  exists m,
    metadata (fst (_get_next_observation cfg self)) = Some m /\
    forall k,
      get k m =
      match get k md with
      | Some v => Some v
      | None =>
          get k [("step", PyInt (_current_step self));
                 ("datapoint_id",
                  PyStr (str_of_int
                           (_current_step self
                            mod Z.of_nat (List.length (dataset self)))));
                 ("verified", PyBool false)]
      end.
Proof.
  intros Hne Hnth Hq Hfa Hmd Hnd.
  rewrite (_get_next_observation_nonempty cfg self Hne).
  rewrite (sample_observation_built self dp q fa md Hne Hnth Hq Hfa Hmd).
  simpl. split; [reflexivity|]. split; [reflexivity|].
  eexists. split; [reflexivity|]. intros k.
  rewrite (get_union k md _ Hnd).
  destruct (get k md) as [v|] eqn:Hk; [reflexivity|].
  simpl. destruct (String.eqb k "step"); [reflexivity|].
  destruct (String.eqb k "datapoint_id"); [reflexivity|].
  destruct (String.eqb_spec k "verified") as [->|_]; [|reflexivity].
  now rewrite Hk.
Qed.

Lemma observation_of_valid_item_witness :
  let self := set_current_step 5 (ready_env [item "q0" "a0"; tagged_item]) in
  exists m,
    metadata (fst (_get_next_observation (demo_cfg None) self)) = Some m /\
    get "step" m = Some (PyStr "override") /\
    get "verified" m = Some (PyBool true) /\
    get "datapoint_id" m = Some (PyStr "1").
Proof.
  intros self.
  destruct (observation_of_valid_item (demo_cfg None) self
              {| dp_question := Some "q"; dp_final_answer := Some "a";
                 dp_rationale := Some "because"; dp_difficulty := None;
                 dp_metadata := Some [("verified", PyBool true);
                                      ("step", PyStr "override")] |}
              "q" "a" [("verified", PyBool true); ("step", PyStr "override")])
    as (_ & _ & m & Hm & Hget); try reflexivity.
  - unfold self. simpl. discriminate.
  - repeat constructor; simpl; intuition discriminate.
  - exists m. split; [exact Hm|].
    split; [|split]; rewrite Hget; reflexivity.
Defined.

(** ** reset *)

Lemma reset_sampled (cfg : Config) (self self' : Env) (obs : Observation) :
  reset cfg self = (Ok obs, self') ->
  exists e,
    dataset e = dataset self /\
    obs = fst (_get_next_observation cfg (episode_start e)) /\
    _state self' = _state (snd (_get_next_observation cfg (episode_start e)))
    /\
    dataset self' = dataset (snd (_get_next_observation cfg (episode_start e))).
Proof.
  rewrite reset_eq.
  destruct (_is_setup self).
  - intros H. exists self.
    destruct (_get_next_observation cfg (episode_start self)) as [o e'].
    injection H as <- <-. now repeat split.
  - pose proof (setup_inv cfg self) as [(Hd & _) _].
    destruct (setup cfg self) as [[[]|x] e]; [|discriminate].
    intros H. exists e.
    destruct (_get_next_observation cfg (episode_start e)) as [o e'].
    injection H as <- <-. now repeat split.
Qed.

Lemma _get_next_observation_current_datapoint (cfg : Config) (self : Env) :
  current_datapoint (_state (snd (_get_next_observation cfg self))) =
    current_datapoint (_state self) \/
  exists dp,
    current_datapoint (_state (snd (_get_next_observation cfg self))) = Some dp
    /\ In (Some dp) (dataset (snd (_get_next_observation cfg self))).
Proof.
  assert (Hs : forall e,
    current_datapoint (_state (snd (sample_observation e))) =
      current_datapoint (_state e) \/
    exists dp,
      current_datapoint (_state (snd (sample_observation e))) = Some dp /\
      In (Some dp) (dataset (snd (sample_observation e)))).
  { intros e. destruct (sample_observation_frame e) as (_ & _ & Hds & _).
    rewrite Hds. unfold sample_observation.
    destruct (Z.of_nat (List.length (dataset e)) =? 0); [now left|].
    destruct (nth_error _ _) as [[dp|]|] eqn:Hnth; try (now left).
    right. exists dp. split.
    - now destruct (truthy_str (dp_question dp)),
        (truthy_str (dp_final_answer dp)), (dp_metadata dp).
    - eapply nth_error_In. exact Hnth. }
  unfold _get_next_observation.
  destruct (Z.of_nat (List.length (dataset self)) =? 0); [|apply Hs].
  destruct (is_generative cfg); [|now left].
  unfold call. destruct (generate_new cfg _ _ _) as [ds|x]; [|now left].
  match goal with |- context [sample_observation ?e] =>
    destruct (Hs e) as [H|H]; [left; exact H | right; exact H] end.
Qed.

(** X19. A reset that returns starts from a fresh state map, whatever the
    previous episode left: the environment is set up, the returned
    observation is the current one, the attempt counter is 0, the success
    rate is 0, the reward history is empty, there is no termination reason,
    and the current datapoint is either absent or an item of the task
    source. *)
Theorem reset_starts_fresh_episode (cfg : Config) (self self' : Env)
    (obs : Observation) :
  reset cfg self = (Ok obs, self') ->
  _is_setup self' = true /\
  _last_observation self' = Some obs /\
  attempts (_state self') = 0 /\
  success_rate (_state self') = 0%Q /\
  rewards (_state self') = [] /\
  termination_reason (_state self') = None /\
  (current_datapoint (_state self') = None \/
   exists dp, current_datapoint (_state self') = Some dp /\
              In (Some dp) (dataset self')).
Proof.
  intros Hr. pose proof (reset_inv cfg self) as H. rewrite Hr in H.
  destruct H as (H1 & _ & _ & _ & H5 & (P1 & P2 & P3 & P4)).
  repeat split; try assumption.
  destruct (reset_sampled cfg self self' obs Hr) as (e & _ & _ & Hst & Hds).
  rewrite Hst, Hds.
  destruct (_get_next_observation_current_datapoint cfg (episode_start e))
    as [H|H]; [left; now rewrite H | now right].
Qed.

Lemma reset_starts_fresh_episode_witness :
  let cfg := demo_cfg None in
  let used := run_ops cfg [OpReset; OpStep (answer "a0" "a0");
                           OpStep (answer "zz" "a1")] (init_env two_items) in
  rewards (_state used) <> [] /\
  rewards (_state (snd (reset cfg used))) = [] /\
  attempts (_state (snd (reset cfg used))) = 0.
Proof.
  intros cfg used. split; [discriminate|].
  destruct (reset cfg used) as [[obs|x] e] eqn:E;
    [|vm_compute in E; discriminate].
  destruct (reset_starts_fresh_episode cfg used e obs E)
    as (_ & _ & H3 & _ & H5 & _).
  split; [exact H5 | exact H3].
Defined.

(** X20. The first observation of an episode over a non-empty source comes
    from the first item, which becomes the current datapoint, valid or not.
    A valid first item gives an observation built from it, which is not
    terminal unless the item's own metadata carries the key [terminal]. An
    invalid first item gives the terminal observation, and reset still
    returns with the episode open. *)
Theorem first_observation (cfg : Config) (self self' : Env)
    (obs : Observation) (item : option Datapoint)
    (rest : list (option Datapoint)) :
  reset cfg self = (Ok obs, self') ->
  dataset self = item :: rest ->
  _episode_ended self' = false /\
  current_datapoint (_state self') = item /\
  (valid_item item = false ->
   obs = _get_terminal_observation self' /\ is_terminal obs = true) /\
  (valid_item item = true ->
   served_from (dataset self) 0 obs /\
   ((forall dp md, item = Some dp -> dp_metadata dp = Some md ->
                   get "terminal" md = None) ->
    is_terminal obs = false)).
Proof.
  intros Hr Hds.
  pose proof (reset_inv cfg self) as H. rewrite Hr in H.
  destruct H as (_ & Hcs & He & _).
  destruct (reset_sampled cfg self self' obs Hr) as (e & Hde & Hobs & Hst & _).
  set (e0 := episode_start e) in *.
  assert (Hne : dataset e0 <> []) by (simpl; rewrite Hde, Hds; discriminate).
  assert (Hidx : _current_step e0 mod Z.of_nat (List.length (dataset e0)) = 0)
    by reflexivity.
  assert (Hnth : nth_error (dataset e0)
                   (Z.to_nat (_current_step e0
                              mod Z.of_nat (List.length (dataset e0))))
                 = Some item).
  { rewrite Hidx. simpl. now rewrite Hde, Hds. }
  rewrite (_get_next_observation_nonempty cfg e0 Hne) in Hobs, Hst.
  destruct (sample_observation_item e0 item Hne Hnth) as [Hvalid Hinvalid].
  split; [exact He|]. split; [|split].
  - rewrite Hst, (sample_observation_current_datapoint e0 item Hne Hnth).
    now destruct item.
  - intros Hv. rewrite Hobs, (Hinvalid Hv).
    unfold _get_terminal_observation. rewrite Hcs. now split.
  - intros Hv. destruct (Hvalid Hv) as [Hserved _].
    rewrite Hidx in Hserved. simpl dataset in Hserved. rewrite Hde in Hserved.
    split; [now rewrite Hobs|].
    intros Hterm. destruct item as [dp|]; [|discriminate]. simpl in Hv.
    destruct (truthy_str (dp_question dp)) as [q|] eqn:Hq; [|discriminate].
    destruct (truthy_str (dp_final_answer dp)) as [fa|] eqn:Hfa;
      [|discriminate].
    destruct (dp_metadata dp) as [md|] eqn:Hmd; [|discriminate].
    rewrite Hobs,
      (sample_observation_built e0 dp q fa md Hne Hnth Hq Hfa Hmd).
    unfold is_terminal. cbn [metadata].
    rewrite (get_union_absent "terminal" md _ (Hterm dp md eq_refl Hmd)).
    reflexivity.
Qed.

Lemma first_observation_witness :
  let cfg := demo_cfg None in
  is_terminal (fst (_get_next_observation cfg
                      (episode_start (ready_env two_items)))) = false /\
  exists obs self',
    reset cfg (init_env [broken_item; item "q1" "a1"]) = (Ok obs, self') /\
    is_terminal obs = true /\ _episode_ended self' = false /\
    current_datapoint (_state self') = broken_item.
Proof.
  intros cfg. split; [reflexivity|].
  destruct (reset cfg (init_env [broken_item; item "q1" "a1"]))
    as [[obs|x] e] eqn:E; [|vm_compute in E; discriminate].
  destruct (first_observation cfg _ e obs broken_item [item "q1" "a1"]
              E eq_refl) as (H1 & H2 & H3 & _).
  exists obs, e. split; [reflexivity|].
  split; [apply H3; reflexivity|]. split; [exact H1 | exact H2].
Defined.

(** ** The pairs of the history *)

(** X21. Each action is recorded with the observation handed out just
    before it. After a reset that returned [obs], below the budget, the
    history after the next [step] is the single pair of [obs] and its
    action, whatever the outcome of that step; after a step that returned a
    result with [done = false], the next [step] appends the pair of the
    observation of that result and its action. *)
Theorem action_is_paired_with_last_result (cfg : Config) (self self' : Env) :
  (forall obs action,
     reset cfg self = (Ok obs, self') ->
     budget_reached cfg self' = false ->
     _episode_history (snd (step cfg action self')) = [(obs, action)]) /\
  (forall previous r action,
     step cfg previous self = (Ok r, self') ->
     done r = false ->
     _episode_history (snd (step cfg action self')) =
     _episode_history self' ++ [(observation r, action)]).
Proof.
  split.
  - intros obs action Hr Hb.
    pose proof (reset_inv cfg self) as H. rewrite Hr in H.
    destruct H as (Hs & _ & He & Hh & Hl & _).
    destruct (step cfg action self') as [res e] eqn:Hstep.
    destruct (step_entered cfg action self' obs res e Hb Hs He Hl Hstep)
      as (_ & H & _).
    simpl. now rewrite H, Hh.
  - intros previous r action Hstep Hdone.
    destruct (step_ok_cases cfg previous self self' r Hstep)
      as [(_ & -> & _)|Hinfo]; [discriminate|].
    destruct (step_completed_inv cfg previous self self' r Hstep Hinfo)
      as (o & _ & _ & _ & _ & (Hb & Hs & He & Hl) & _).
    destruct (step_entered cfg previous self o _ _ Hb Hs He Hl Hstep)
      as (_ & _ & Hs' & Hd & Hend & Hlast & _).
    destruct (step cfg action self') as [res e] eqn:Hstep'.
    assert (Hb' : budget_reached cfg self' = false) by congruence.
    assert (He' : _episode_ended self' = false) by congruence.
    now destruct (step_entered cfg action self' (observation r) res e
                    Hb' Hs' He' Hlast Hstep') as (_ & H & _).
Qed.

Lemma action_is_paired_with_last_result_witness :
  let cfg := demo_cfg None in
  exists obs self',
    reset cfg (init_env two_items) = (Ok obs, self') /\
    _episode_history (snd (step cfg (answer "a0" "a0") self')) =
    [(obs, answer "a0" "a0")].
Proof.
  intros cfg.
  destruct (reset cfg (init_env two_items)) as [[obs|x] e] eqn:E;
    [|vm_compute in E; discriminate].
  exists obs, e. split; [reflexivity|].
  apply (proj1 (action_is_paired_with_last_result cfg (init_env two_items) e)
           obs (answer "a0" "a0") E).
  reflexivity.
Defined.
